(** * electrumrelay: the Electrum client of [pkg/electrum/client.go]

    A shallow embedding of the client's connection selection
    ([Connect], [GetTLSConn], [GetConn]), of its request/response
    exchange ([SendRequest], [SendRequestBytes]) and of peer discovery
    ([GetPeerInfo]), followed by the properties established about them.

    Go code that logs, dials, writes, reads and closes is embedded in a
    writer monad over a trace of events; a Go run-time panic ends the
    computation and is kept as an outcome of its own.  The network, the
    JSON decoder and the functions of the package that live in other
    files are variables of the section. *)

From Stdlib Require Import List String Ascii ZArith NArith Bool Lia.
From Stdlib Require Import Strings.Byte DecimalString.
Import ListNotations.
Open Scope string_scope.

(** ** Go values *)

(** A Go [error] is modelled by the text its [Error()] method gives;
    the [nil] error is [None] of [option error]. *)
Definition error : Type := string.

Definition errors_New (msg : string) : error := msg.

(** [time.Duration]: a number of nanoseconds. *)
Definition Duration : Type := Z.

(** The byte and the string that Go writes ["\n"]. *)
Definition newline : byte := x0a.
Definition nl : string := String "010"%char EmptyString.

(** The verb [%d] of package fmt on an integer. *)
Definition fmt_d (z : Z) : string := NilEmpty.string_of_int (Z.to_int z).

(** Modelled from the spec: the [Node] struct, whose declaration is in
    another file of the package.  The client reads the fields [Host],
    [TCPPort] and [SSLPort]; the spec's Node Descriptor has a host
    identifier, a plaintext port and an encrypted port. *)
Record Node : Type := mkNode {
  Host : string;
  TCPPort : N;
  SSLPort : N
}.

(** Modelled from the spec: the [JSONRPCRequest] struct (a method name,
    a parameter list and a numeric correlation identifier); the client
    reads its field [ID]. *)
Record JSONRPCRequest : Type := mkJSONRPCRequest {
  Method : string;
  Params : list string;
  ID : Z
}.

(** Modelled from the spec: [NewPeerRequest], the request of the
    peer-subscription method with the caller's identifier. *)
Definition NewPeerRequest (reqID : Z) : JSONRPCRequest :=
  mkJSONRPCRequest "server.peers.subscribe" [] reqID.

(** ** Connections

    A live connection ([net.Conn], [*tls.Conn]) as a double: what a
    write of given bytes answers, the bytes the peer sends followed by
    the error that ends the stream ([io.EOF] when the peer closes), and
    what [Close] answers.  [Id] names the connection in the trace and
    [Repr] is the text [fmt.Println] prints for it.  A peer that neither
    sends nor closes makes the read block; such a stream has no
    counterpart here. *)
Record Conn : Type := mkConn {
  Id : nat;
  Repr : string;
  WriteErr : list byte -> option error;
  Incoming : list byte;
  StreamErr : error;
  CloseErr : option error
}.

(** The same connection with another answer of [Close], and a network
    all of whose connections answer [Close] that way. *)
Definition with_close (ce : option error) (k : Conn) : Conn :=
  mkConn (Id k) (Repr k) (WriteErr k) (Incoming k) (StreamErr k) ce.

Definition closing {A : Type} (ce : option error) (r : Conn + A) : Conn + A :=
  match r with
  | inl k => inl (with_close ce k)
  | inr e => inr e
  end.

Definition io_EOF : error := "EOF".

(** ** Events and the monad of effects *)

Inductive Level : Type := LvInfo | LvWarning | LvError.

Inductive Transport : Type := TLS | TCP.

Inductive Event : Type :=
| EvLog (lv : Level) (msg : string)
| EvStdout (msg : string)
| EvDial (tr : Transport) (network addr : string) (timeout : Duration)
| EvWrite (conn : nat) (data : list byte)
| EvRead (conn : nat)
| EvClose (conn : nat).

Inductive Outcome (A : Type) : Type :=
| Ret (a : A)
| Panic (reason : string).

Arguments Ret {A} a.
Arguments Panic {A} reason.

Definition IO (A : Type) : Type := (list Event * Outcome A)%type.

Definition trace {A : Type} (m : IO A) : list Event := fst m.
Definition outcome {A : Type} (m : IO A) : Outcome A := snd m.

Definition ret {A : Type} (a : A) : IO A := ([], Ret a).

Definition bind {A B : Type} (m : IO A) (f : A -> IO B) : IO B :=
  match m with
  | (t, Ret a) => let (t', r) := f a in ((t ++ t')%list, r)
  | (t, Panic reason) => (t, Panic reason)
  end.

Definition emit (e : Event) : IO unit := ([e], Ret tt).

Definition panic {A : Type} (reason : string) : IO A := ([], Panic reason).

Declare Scope io_scope.
Delimit Scope io_scope with io.

Notation "x <- c1 ;; c2" := (bind c1 (fun x => c2))
  (at level 61, c1 at next level, right associativity) : io_scope.
Notation "' pat <- c1 ;; c2" := (bind c1 (fun x => match x with pat => c2 end))
  (at level 61, pat pattern, c1 at next level, right associativity) : io_scope.
Notation "c1 ;; c2" := (bind c1 (fun _ => c2))
  (at level 61, right associativity) : io_scope.

Open Scope io_scope.

(** The run-time error of a method call through a nil pointer or a nil
    interface value. *)
Definition nil_dereference : string :=
  "runtime error: invalid memory address or nil pointer dereference".

(** The three loggers of the [Client]; they are taken to be live. *)
Definition InfoLogger_Printf (msg : string) : IO unit := emit (EvLog LvInfo msg).
Definition ErrorLogger_Printf (msg : string) : IO unit := emit (EvLog LvError msg).

Definition fmt_Println (msg : string) : IO unit := emit (EvStdout (msg ++ nl)).

(** [conn.Close()]: on the nil connection the call panics.  A nil
    [net.Conn] interface value has no method to dispatch to, and the
    [Close] of a [tls.Conn] pointer reads a field of its receiver at
    once. *)
Definition conn_Close (conn : option Conn) : IO (option error) :=
  match conn with
  | None => panic nil_dereference
  | Some k => emit (EvClose (Id k)) ;; ret (CloseErr k)
  end.

(** [fmt.Fprintf(conn, "%s", s)]: one write of the bytes of [s]. *)
Definition fmt_Fprintf_s (conn : option Conn) (s : string) : IO (option error) :=
  match conn with
  | None => panic nil_dereference
  | Some k =>
      let data := list_byte_of_string s in
      emit (EvWrite (Id k) data) ;; ret (WriteErr k data)
  end.

(** [bufio.Reader.ReadBytes]: the data up to and including the first
    [delim]; when the stream ends before one is found, the data read
    before the error and the error itself. *)
Fixpoint ReadBytes (delim : byte) (input : list byte) (eos : error)
  : list byte * option error :=
  match input with
  | [] => ([], Some eos)
  | b :: rest =>
      if Byte.eqb b delim then ([b], None)
      else let (line, err) := ReadBytes delim rest eos in (b :: line, err)
  end.

Definition bufio_ReadBytes (conn : option Conn) (delim : byte)
  : IO (list byte * option error) :=
  match conn with
  | None => panic nil_dereference
  | Some k => emit (EvRead (Id k)) ;; ret (ReadBytes delim (Incoming k) (StreamErr k))
  end.

Definition conn_Println (conn : option Conn) : IO unit :=
  match conn with
  | None => fmt_Println "<nil>"
  | Some k => fmt_Println (Repr k)
  end.

(** ** Observations on traces *)

Definition is_net (e : Event) : bool :=
  match e with
  | EvLog _ _ | EvStdout _ => false
  | _ => true
  end.

Definition net_events (t : list Event) : list Event := filter is_net t.

Definition is_close (c : nat) (e : Event) : bool :=
  match e with
  | EvClose c' => Nat.eqb c c'
  | _ => false
  end.

Definition closes (c : nat) (t : list Event) : nat :=
  List.length (filter (is_close c) t).

Fixpoint writes (t : list Event) : list (nat * list byte) :=
  match t with
  | [] => []
  | EvWrite c data :: t' => (c, data) :: writes t'
  | _ :: t' => writes t'
  end.

Fixpoint dials (t : list Event) : list (Transport * string) :=
  match t with
  | [] => []
  | EvDial tr _ addr _ :: t' => (tr, addr) :: dials t'
  | _ :: t' => dials t'
  end.

Definition is_log (e : Event) : bool :=
  match e with
  | EvLog _ _ => true
  | _ => false
  end.

Definition unlogged (t : list Event) : list Event :=
  filter (fun e => negb (is_log e)) t.

Definition is_error_log (e : Event) : bool :=
  match e with
  | EvLog LvError _ => true
  | _ => false
  end.

(** Whether the trace holds a line of the error logger. *)
Definition logs_error (t : list Event) : bool := existsb is_error_log t.

(** The texts printed on standard output, in order. *)
Fixpoint stdouts (t : list Event) : list string :=
  match t with
  | [] => []
  | EvStdout msg :: t' => msg :: stdouts t'
  | _ :: t' => stdouts t'
  end.

(** ** Doubles

    Concrete nodes, connections, networks and collaborators on which the
    client is run in the examples below. *)
Module Double.

Definition IsOnion (n : Node) : bool :=
  String.eqb (substring (String.length (Host n) - 6) 6 (Host n)) ".onion".

Definition SupportsTLS (n : Node) : bool := negb (N.eqb (SSLPort n) 0).

Definition plainNode : Node := mkNode "electrum.example" 50001 0.
Definition zeroPortNode : Node := mkNode "electrum.example" 0 0.
Definition tlsNode : Node := mkNode "electrum.example" 50001 50002.
Definition onionNode : Node := mkNode "explorerzydxu5ecjrkwceayqybizmpjjznk5izmitf2modhcusuqlid.onion" 50001 0.

Definition bytes (s : string) : list byte := list_byte_of_string s.

(** A connection that answers every write with [wr], delivers
    [incoming] and then end-of-stream, and answers [Close] with [cl]. *)
Definition conn (wr : option error) (incoming : string) (cl : option error) : Conn :=
  mkConn 1 "&{0xc000010000}" (fun _ => wr) (bytes incoming) io_EOF cl.

Definition tlsAccepts (k : Conn) : Duration -> string -> string -> bool -> Conn + error :=
  fun _ _ _ _ => inl k.
Definition tlsFails (e : error) : Duration -> string -> string -> bool -> Conn + error :=
  fun _ _ _ _ => inr e.
Definition tcpAccepts (k : Conn) : string -> string -> Duration -> Conn + error :=
  fun _ _ _ => inl k.
Definition tcpFails (e : error) : string -> string -> Duration -> Conn + error :=
  fun _ _ _ => inr e.

Definition refused : error := "dial tcp 203.0.113.5:50002: connect: connection refused".
Definition handshake : error := "remote error: tls: handshake failure".
Definition brokenPipe : error := "write tcp 203.0.113.5:50001: write: broken pipe".

(** A stand-in for [JSONRPCRequest.Send]: one line out, one line in. *)
Definition Send (req : JSONRPCRequest) (c : option Conn)
  : IO (list byte * option error) :=
  err <- fmt_Fprintf_s c (Method req ++ nl) ;;
  match err with
  | Some e => ret ([], Some e)
  | None => bufio_ReadBytes c newline
  end.

(** A stand-in for the decoder: a payload decodes when it opens with
    a brace; the decoded response is the payload itself. *)
Definition json_Unmarshal (data : list byte) : error + list byte :=
  match data with
  | x7b :: _ => inr data
  | _ => inl "invalid character looking for beginning of value"
  end.

Definition Parse (spr : list byte) : list Node * option error := ([], None).

(** Parsers that find one node, without and with an error. *)
Definition ParseOne (spr : list byte) : list Node * option error :=
  ([mkNode "peer.example" 50001 50002], None).
Definition ParseFails (spr : list byte) : list Node * option error :=
  ([mkNode "peer.example" 50001 50002], Some "unknown feature").

Definition closeFailed : error := "close tcp 203.0.113.5:50001: use of closed network connection".

Definition second : Duration := 1000000000%Z.

End Double.

(** ** The client *)

Section Client.

(** Methods of [Node] declared in another file of the package. *)
Variable IsOnion : Node -> bool.
Variable SupportsTLS : Node -> bool.

(** The network: what [tls.DialWithDialer] (dialer timeout, network,
    address, [InsecureSkipVerify]) and [net.DialTimeout] answer. *)
Variable tls_DialWithDialer : Duration -> string -> string -> bool -> Conn + error.
Variable net_DialTimeout : string -> string -> Duration -> Conn + error.

(** [JSONRPCRequest.Send], declared in another file of the package:
    the round trip of one request over the connection it is given. *)
Variable Send : JSONRPCRequest -> option Conn -> IO (list byte * option error).

(** [ServerPeersSubscriptionResp], [json.Unmarshal] into it, and
    [ParseServerPeersSubscriptionResp], declared elsewhere. *)
Variable ServerPeersSubscriptionResp : Type.
Variable json_Unmarshal : list byte -> error + ServerPeersSubscriptionResp.
Variable ParseServerPeersSubscriptionResp :
  ServerPeersSubscriptionResp -> list Node * option error.

Definition dial_TLS (timeout : Duration) (addr : string) : IO (Conn + error) :=
  emit (EvDial TLS "tcp" addr timeout) ;;
  ret (tls_DialWithDialer timeout "tcp" addr true).

Definition dial_TCP (addr : string) (timeout : Duration) : IO (Conn + error) :=
  emit (EvDial TCP "tcp" addr timeout) ;;
  ret (net_DialTimeout "tcp" addr timeout).

(** GetTLSConn establishes a TLS connection to a given node. *)
Definition GetTLSConn (n : Node) (timeout : Duration)
  : IO (option Conn * option error) :=
  if IsOnion n then
    ErrorLogger_Printf ("failed to connect to " ++ Host n
                        ++ ": tor support not yet implemented" ++ nl) ;;
    ret (None, Some (errors_New "tor support not yet implemented"))
  else if negb (SupportsTLS n) then
    ErrorLogger_Printf (Host n ++ " does not support TLS, not attempting to connect" ++ nl) ;;
    ret (None, Some (errors_New "node does not support SSL/TLS"))
  else
    let connStr := Host n ++ ":" ++ fmt_d (Z.of_N (SSLPort n)) in
    r <- dial_TLS timeout connStr ;;
    match r with
    | inr err =>
        ErrorLogger_Printf ("error establishing TLS connection to: " ++ connStr
                            ++ nl ++ ": " ++ err) ;;
        ret (None, Some ("could not establish TLS connection to " ++ connStr
                         ++ ": " ++ err))
    | inl conn =>
        InfoLogger_Printf ("successfully established TLS connection to " ++ connStr ++ nl) ;;
        ret (Some conn, None)
    end.

(** GetConn establishes a TCP connection to a given node. *)
Definition GetConn (n : Node) (timeout : Duration)
  : IO (option Conn * option error) :=
  if IsOnion n then
    ErrorLogger_Printf ("failed to connect to " ++ Host n
                        ++ ": tor support not yet implemented" ++ nl) ;;
    ret (None, Some (errors_New "tor support not yet implemented"))
  else
    let connStr := Host n ++ ":" ++ fmt_d (Z.of_N (TCPPort n)) in
    InfoLogger_Printf ("establishing TCP connection to " ++ connStr ++ nl) ;;
    r <- dial_TCP connStr timeout ;;
    match r with
    | inr err =>
        ErrorLogger_Printf ("could not establish TLS connection to " ++ connStr
                            ++ ": " ++ err ++ nl) ;;
        ret (None, Some ("could not establish TLS connection to " ++ connStr
                         ++ ": " ++ err))
    | inl conn =>
        InfoLogger_Printf ("successfully established TCP connection to " ++ connStr ++ nl) ;;
        ret (Some conn, None)
    end.

(** Connect tries to connect to a node in the following order: Tor,
    TLS, TCP. *)
Definition Connect (n : Node) (timeout : Duration)
  : IO (option Conn * option error) :=
  if IsOnion n then
    ErrorLogger_Printf ("failed to connect to " ++ Host n
                        ++ ": tor support not yet implemented" ++ nl) ;;
    ret (None, Some (errors_New "to support not yet implemented"))
  else if SupportsTLS n then
    InfoLogger_Printf (Host n ++ " supports TLS, attempting TLS connection" ++ nl) ;;
    '(conn, err) <- GetTLSConn n timeout ;;
    match err with
    | Some e =>
        ErrorLogger_Printf ("error establishing TLS connection to: " ++ Host n ++ nl) ;;
        connErr <- conn_Close conn ;;
        match connErr with
        | Some ce =>
            ErrorLogger_Printf ("could not close connection to: " ++ Host n
                                ++ " after failed TLS connection attempt: " ++ ce ++ nl)
        | None => ret tt
        end ;;
        ret (None, Some e)
    | None => ret (conn, None)
    end
  else
    '(conn, err) <- GetConn n timeout ;;
    InfoLogger_Printf (Host n ++ " supports TCP, attempting TCP connection" ++ nl) ;;
    match err with
    | Some e =>
        ErrorLogger_Printf ("error establishing TLS connection to: " ++ Host n
                            ++ nl ++ ": " ++ e) ;;
        connErr <- conn_Close conn ;;
        match connErr with
        | Some ce =>
            ErrorLogger_Printf ("could not close connection to: " ++ Host n
                                ++ " after failed TCP connection attempt: " ++ ce ++ nl)
        | None => ret tt
        end ;;
        ret (None, Some e)
    | None => ret (conn, None)
    end.

(** SendRequest sends a JSON RPC Request to a node, and returns a
    response as bytes.  The nil slice is the empty list. *)
Definition SendRequest (req : JSONRPCRequest) (n : Node) (timeout : Duration)
  : IO (list byte * option error) :=
  InfoLogger_Printf ("attempting to connect to " ++ Host n ++ nl) ;;
  '(conn, err) <- Connect n timeout ;;
  match err with
  | Some e => ret ([], Some ("could not connect to " ++ Host n ++ ": " ++ e))
  | None =>
      InfoLogger_Printf ("sending request ID: " ++ fmt_d (ID req)
                         ++ " to: " ++ Host n ++ nl) ;;
      '(resp, err) <- Send req conn ;;
      match err with
      | Some e =>
          ErrorLogger_Printf ("error sending request ID: " ++ fmt_d (ID req)
                              ++ " to: " ++ Host n ++ ": " ++ e ++ nl) ;;
          connErr <- conn_Close conn ;;
          match connErr with
          | Some ce =>
              ErrorLogger_Printf ("could not close connection to: " ++ Host n
                                  ++ " after failed request ID: " ++ fmt_d (ID req)
                                  ++ ": " ++ ce ++ nl)
          | None => ret tt
          end ;;
          ret ([], Some e)
      | None =>
          conn_Close conn ;;
          ret (resp, None)
      end
  end.

(** SendRequestBytes: the same exchange on request bytes.  The error
    of [ReadBytes] is dropped at its call, and the test that follows
    the read looks again at [err], the error of the write. *)
Definition SendRequestBytes (req : list byte) (n : Node) (timeout : Duration)
  : IO (list byte * option error) :=
  InfoLogger_Printf ("attempting to connect to " ++ Host n ++ nl) ;;
  '(conn, err) <- Connect n timeout ;;
  match err with
  | Some e => ret ([], Some e)
  | None =>
      InfoLogger_Printf ("sending request: " ++ string_of_list_byte req
                         ++ " to: " ++ Host n ++ nl) ;;
      conn_Println conn ;;
      err <- fmt_Fprintf_s conn (string_of_list_byte req ++ nl) ;;
      match err with
      | Some e => ret ([], Some e)
      | None =>
          '(resp, _) <- bufio_ReadBytes conn newline ;;
          fmt_Println (string_of_list_byte resp) ;;
          match err with
          | Some e => ret ([], Some e)
          | None =>
              conn_Close conn ;;
              ret (resp, None)
          end
      end
  end.

(** GetPeerInfo gets peer information from a node by sending it a
    server.peers.subscribe JSON RPC Request.  It then parses the
    response and returns the Electrum peers. *)
Definition GetPeerInfo (n : Node) (reqID : Z) (timeout : Duration)
  : IO (list Node * option error) :=
  if IsOnion n then
    ErrorLogger_Printf ("failed to connect to " ++ Host n
                        ++ ": tor support not yet implemented" ++ nl) ;;
    ret ([], Some (errors_New "tor support not yet implemented"))
  else
    '(resp, err) <- SendRequest (NewPeerRequest reqID) n timeout ;;
    match err with
    | Some e =>
        ErrorLogger_Printf ("failed to send peer request ID " ++ fmt_d reqID
                            ++ " to " ++ Host n ++ ": " ++ e ++ nl) ;;
        ret ([], Some e)
    | None =>
        match json_Unmarshal resp with
        | inl e =>
            ErrorLogger_Printf ("error unmarshalling server peer subscription from "
                                ++ Host n ++ " req ID " ++ fmt_d reqID
                                ++ ": " ++ e ++ nl) ;;
            ret ([], Some e)
        | inr spr =>
            let '(peers, err) := ParseServerPeersSubscriptionResp spr in
            match err with
            | Some e =>
                ErrorLogger_Printf
                  ("error parsing server peer subscription request response from "
                   ++ Host n ++ " for req ID " ++ fmt_d reqID ++ ": " ++ e ++ nl) ;;
                ret ([], Some e)
            | None =>
                InfoLogger_Printf ("successfully retrieved peer information from "
                                   ++ Host n) ;;
                ret (peers, None)
            end
        end
    end.

(** The one dial that [Connect] makes for a node that is no onion node:
    its transport, its address, and what the network answers to it. *)
Definition chosen_transport (n : Node) : Transport :=
  if SupportsTLS n then TLS else TCP.

Definition chosen_addr (n : Node) : string :=
  if SupportsTLS n
  then Host n ++ ":" ++ fmt_d (Z.of_N (SSLPort n))
  else Host n ++ ":" ++ fmt_d (Z.of_N (TCPPort n)).

Definition chosen_dial (n : Node) (timeout : Duration) : Conn + error :=
  if SupportsTLS n
  then tls_DialWithDialer timeout "tcp" (chosen_addr n) true
  else net_DialTimeout "tcp" (chosen_addr n) timeout.

(** ** Bytes, lines and traces *)

Lemma list_byte_of_string_app (s1 s2 : string) :
  list_byte_of_string (s1 ++ s2)
  = (list_byte_of_string s1 ++ list_byte_of_string s2)%list.
Proof.
  induction s1 as [|a s1 IH]; [reflexivity|].
  change (list_byte_of_string (String a s1 ++ s2))
    with (byte_of_ascii a :: list_byte_of_string (s1 ++ s2)).
  rewrite IH. reflexivity.
Qed.

(** The bytes of [string(req)+"\n"] are the bytes of [req] and one
    newline. *)
Lemma framed_request (req : list byte) :
  list_byte_of_string (string_of_list_byte req ++ nl) = (req ++ [newline])%list.
Proof.
  rewrite list_byte_of_string_app, list_byte_of_string_of_list_byte.
  reflexivity.
Qed.

Lemma ReadBytes_line (delim : byte) (line rest : list byte) (eos : error) :
  ~ In delim line ->
  ReadBytes delim (line ++ delim :: rest) eos = ((line ++ [delim])%list, None).
Proof.
  induction line as [|b line IH]; simpl; intros Hnot.
  - rewrite byte_dec_lb by reflexivity. reflexivity.
  - destruct (Byte.eqb b delim) eqn:E.
    + apply byte_dec_bl in E. exfalso. apply Hnot. left. exact E.
    + rewrite IH by (intros Hin; apply Hnot; right; exact Hin). reflexivity.
Qed.

Lemma ReadBytes_no_delim (delim : byte) (input : list byte) (eos : error) :
  ~ In delim input ->
  ReadBytes delim input eos = (input, Some eos).
Proof.
  induction input as [|b input IH]; simpl; intros Hnot; [reflexivity|].
  destruct (Byte.eqb b delim) eqn:E.
  - apply byte_dec_bl in E. exfalso. apply Hnot. left. exact E.
  - rewrite IH by (intros Hin; apply Hnot; right; exact Hin). reflexivity.
Qed.

Lemma writes_app (t1 t2 : list Event) :
  writes (t1 ++ t2) = (writes t1 ++ writes t2)%list.
Proof.
  induction t1 as [|e t1 IH]; [reflexivity|].
  destruct e; simpl; rewrite IH; reflexivity.
Qed.

Lemma closes_app (c : nat) (t1 t2 : list Event) :
  closes c (t1 ++ t2) = closes c t1 + closes c t2.
Proof.
  unfold closes. rewrite filter_app, length_app. reflexivity.
Qed.

Lemma closes_cons (c : nat) (e : Event) (t : list Event) :
  closes c (e :: t) = (if is_close c e then 1 else 0) + closes c t.
Proof.
  unfold closes. simpl. destruct (is_close c e); reflexivity.
Qed.

Lemma closes_EvClose (c : nat) : closes c [EvClose c] = 1.
Proof.
  unfold closes. simpl. rewrite Nat.eqb_refl. reflexivity.
Qed.

(** ** Properties of the connection selector *)

(** What [Connect] gives when it returns a connection: the node is no
    onion node and the dial of the chosen transport succeeded. *)
Lemma Connect_returns_conn (n : Node) (timeout : Duration) (k : Conn) :
  outcome (Connect n timeout) = Ret (Some k, None) ->
  IsOnion n = false /\
  (if SupportsTLS n
   then tls_DialWithDialer timeout "tcp"
          (Host n ++ ":" ++ fmt_d (Z.of_N (SSLPort n))) true = inl k
   else net_DialTimeout "tcp"
          (Host n ++ ":" ++ fmt_d (Z.of_N (TCPPort n))) timeout = inl k).
Proof.
  unfold Connect, GetTLSConn, GetConn, dial_TLS, dial_TCP.
  destruct (IsOnion n); [discriminate|].
  destruct (SupportsTLS n); simpl.
  - destruct (tls_DialWithDialer _ _ _ _); simpl; intros H; inversion H; auto.
  - destruct (net_DialTimeout _ _ _); simpl; intros H; inversion H; auto.
Qed.

(** A connection that [Connect] returns has not been closed, written
    or read: the only network event of the call is its one dial. *)
Lemma Connect_returns_conn_trace (n : Node) (timeout : Duration) (k : Conn) :
  outcome (Connect n timeout) = Ret (Some k, None) ->
  (forall c, closes c (trace (Connect n timeout)) = 0) /\
  writes (trace (Connect n timeout)) = [].
Proof.
  unfold Connect, GetTLSConn, GetConn, dial_TLS, dial_TCP.
  destruct (IsOnion n); [discriminate|].
  destruct (SupportsTLS n); simpl.
  - destruct (tls_DialWithDialer _ _ _ _); simpl; intros H; inversion H; auto.
  - destruct (net_DialTimeout _ _ _); simpl; intros H; inversion H; auto.
Qed.

(** When the dial of the chosen transport fails, [GetTLSConn] and
    [GetConn] hand back the nil connection with the error, and the
    [Close] that [Connect] then calls on it panics: the error is never
    returned. *)
Lemma Connect_failed_dial_panics (n : Node) (timeout : Duration) (e : error) :
  IsOnion n = false ->
  (if SupportsTLS n
   then tls_DialWithDialer timeout "tcp"
          (Host n ++ ":" ++ fmt_d (Z.of_N (SSLPort n))) true = inr e
   else net_DialTimeout "tcp"
          (Host n ++ ":" ++ fmt_d (Z.of_N (TCPPort n))) timeout = inr e) ->
  outcome (Connect n timeout) = Panic nil_dereference.
Proof.
  intros Hon Hd. unfold Connect, GetTLSConn, GetConn, dial_TLS, dial_TCP.
  rewrite Hon. cbv zeta.
  destruct (SupportsTLS n); rewrite Hd; reflexivity.
Qed.

(** A node that advertises TLS is never dialled over plain TCP. *)
Lemma Connect_tls_only (n : Node) (timeout : Duration) :
  IsOnion n = false -> SupportsTLS n = true ->
  dials (trace (Connect n timeout))
  = [(TLS, Host n ++ ":" ++ fmt_d (Z.of_N (SSLPort n)))].
Proof.
  intros Hon Htls. unfold Connect, GetTLSConn, dial_TLS.
  rewrite Hon, Htls; simpl.
  destruct (tls_DialWithDialer _ _ _ _); reflexivity.
Qed.

(** On the network a call of [Connect] for a node that is no onion
    node is its one dial, whether the dial succeeds or fails. *)
Lemma Connect_net_events (n : Node) (timeout : Duration) :
  IsOnion n = false ->
  net_events (trace (Connect n timeout))
  = [EvDial (chosen_transport n) "tcp" (chosen_addr n) timeout].
Proof.
  intros Hon.
  unfold Connect, GetTLSConn, GetConn, dial_TLS, dial_TCP,
    chosen_transport, chosen_addr.
  rewrite Hon. cbv zeta.
  destruct (SupportsTLS n); cbn [negb].
  - destruct (tls_DialWithDialer _ _ _ _); reflexivity.
  - destruct (net_DialTimeout _ _ _); reflexivity.
Qed.

(** C1. For every node classified as an onion address, [Connect] and
    [GetPeerInfo] both return an error saying that the transport is
    not supported, and the trace of either call holds no network
    event: nothing is dialled, written, read or closed. *)
Theorem onion_rejected_without_network_io
    (n : Node) (reqID : Z) (timeout : Duration) :
  IsOnion n = true ->
  outcome (Connect n timeout)
    = Ret (None, Some (errors_New "to support not yet implemented")) /\
  net_events (trace (Connect n timeout)) = [] /\
  outcome (GetPeerInfo n reqID timeout)
    = Ret ([], Some (errors_New "tor support not yet implemented")) /\
  net_events (trace (GetPeerInfo n reqID timeout)) = [].
Proof.
  intros Hon. unfold Connect, GetPeerInfo. rewrite Hon. simpl. auto.
Qed.

(** C9. For every node that is neither an onion node nor a node that
    advertises TLS, [Connect] dials the plaintext address
    [Host:TCPPort] whatever the port is, the port zero included: the
    selector checks no port. *)
Theorem Connect_plain_dials_any_port (n : Node) (timeout : Duration) :
  IsOnion n = false -> SupportsTLS n = false ->
  dials (trace (Connect n timeout))
    = [(TCP, Host n ++ ":" ++ fmt_d (Z.of_N (TCPPort n)))] /\
  (TCPPort n = 0%N ->
   In (EvDial TCP "tcp" (Host n ++ ":0") timeout) (trace (Connect n timeout))).
Proof.
  intros Hon Htls. unfold Connect, GetConn, dial_TCP.
  rewrite Hon, Htls; simpl. split.
  - destruct (net_DialTimeout _ _ _); reflexivity.
  - intros H0. rewrite H0.
    destruct (net_DialTimeout _ _ _); simpl; auto.
Qed.

(** C10. [GetTLSConn], called directly on a node that does not
    advertise TLS, returns an error and dials nothing; and on an onion
    node [GetTLSConn] and [GetConn] each return the error of the
    unsupported transport with no network event at all. *)
Theorem GetTLSConn_GetConn_guards (n : Node) (timeout : Duration) :
  (SupportsTLS n = false ->
   (exists e, outcome (GetTLSConn n timeout) = Ret (None, Some e)) /\
   net_events (trace (GetTLSConn n timeout)) = []) /\
  (IsOnion n = true ->
   outcome (GetTLSConn n timeout)
     = Ret (None, Some (errors_New "tor support not yet implemented")) /\
   net_events (trace (GetTLSConn n timeout)) = [] /\
   outcome (GetConn n timeout)
     = Ret (None, Some (errors_New "tor support not yet implemented")) /\
   net_events (trace (GetConn n timeout)) = []).
Proof.
  unfold GetTLSConn, GetConn. split.
  - intros Htls. rewrite Htls. destruct (IsOnion n); simpl; eauto.
  - intros Hon. rewrite Hon. simpl. auto.
Qed.

(** ** Properties of the exchange *)

(** [SendRequestBytes] after a successful [Connect], as one write
    followed by the rest of the call. *)
Lemma SendRequestBytes_connected
    (req : list byte) (n : Node) (timeout : Duration) (k : Conn) (tr : list Event) :
  Connect n timeout = (tr, Ret (Some k, None)) ->
  SendRequestBytes req n timeout
  = let pre :=
      (EvLog LvInfo ("attempting to connect to " ++ Host n ++ nl) :: tr
       ++ [EvLog LvInfo ("sending request: " ++ string_of_list_byte req
                         ++ " to: " ++ Host n ++ nl);
           EvStdout (Repr k ++ nl);
           EvWrite (Id k) (req ++ [newline])])%list in
    match WriteErr k (req ++ [newline]) with
    | Some e => (pre, Ret ([], Some e))
    | None =>
        let resp := fst (ReadBytes newline (Incoming k) (StreamErr k)) in
        ((pre ++ [EvRead (Id k); EvStdout (string_of_list_byte resp ++ nl);
                  EvClose (Id k)])%list,
         Ret (resp, None))
    end.
Proof.
  intros E. unfold SendRequestBytes, fmt_Fprintf_s, bufio_ReadBytes.
  rewrite E, framed_request. cbv zeta.
  destruct (WriteErr k (req ++ [newline])) as [e|] eqn:W.
  - unfold bind, emit, ret, InfoLogger_Printf, conn_Println, fmt_Println; simpl.
    rewrite W. reflexivity.
  - unfold bind, emit, ret, InfoLogger_Printf, conn_Println, fmt_Println,
      conn_Close; simpl.
    rewrite W.
    destruct (ReadBytes newline (Incoming k) (StreamErr k)) as [resp rerr].
    simpl. rewrite <- !app_assoc. reflexivity.
Qed.

(** C7. Once [Connect] has returned a connection, [SendRequestBytes]
    writes onto it exactly the request bytes followed by one newline,
    in a single write; when that write succeeds, the call then reads
    from the connection, once and after the write: on the network the
    whole call is the dial, the write, the read and the [Close], in
    this order; and when the peer sends a record ended by a newline,
    the call returns exactly that record, newline included, whatever
    follows it on the stream. *)
Theorem SendRequestBytes_framing
    (req : list byte) (n : Node) (timeout : Duration) (k : Conn) :
  outcome (Connect n timeout) = Ret (Some k, None) ->
  writes (trace (SendRequestBytes req n timeout))
    = [(Id k, (req ++ [newline])%list)] /\
  (forall line rest : list byte,
     WriteErr k (req ++ [newline]) = None ->
     Incoming k = (line ++ newline :: rest)%list ->
     ~ In newline line ->
     outcome (SendRequestBytes req n timeout) = Ret ((line ++ [newline])%list, None)) /\
  (WriteErr k (req ++ [newline]) = None ->
   net_events (trace (SendRequestBytes req n timeout))
   = [EvDial (chosen_transport n) "tcp" (chosen_addr n) timeout;
      EvWrite (Id k) (req ++ [newline]);
      EvRead (Id k);
      EvClose (Id k)]).
Proof.
  intros Hc. destruct (Connect_returns_conn_trace _ _ _ Hc) as [_ Hw].
  destruct (Connect_returns_conn _ _ _ Hc) as [Hon _].
  pose proof (Connect_net_events n timeout Hon) as Hn.
  destruct (Connect n timeout) as [tr o] eqn:E. simpl in Hc, Hw, Hn. subst o.
  rewrite (SendRequestBytes_connected req _ _ _ _ E). cbv zeta.
  split; [|split].
  - destruct (WriteErr k (req ++ [newline])); simpl;
      rewrite ?writes_app, Hw; reflexivity.
  - intros line rest W Hin Hnot. rewrite W, Hin, ReadBytes_line by exact Hnot.
    reflexivity.
  - intros W. rewrite W. cbn [trace fst]. unfold net_events in *.
    rewrite filter_app.
    change (filter is_net
              (EvLog LvInfo ("attempting to connect to " ++ Host n ++ nl)
               :: tr ++ ?t))
      with (filter is_net (tr ++ t)).
    rewrite filter_app, Hn. reflexivity.
Qed.

(** When the write fails, [SendRequestBytes] returns the error of the
    write and leaves without closing the connection. *)
Lemma SendRequestBytes_write_failure
    (req : list byte) (n : Node) (timeout : Duration) (k : Conn) (e : error) :
  outcome (Connect n timeout) = Ret (Some k, None) ->
  WriteErr k (req ++ [newline]) = Some e ->
  outcome (SendRequestBytes req n timeout) = Ret ([], Some e) /\
  forall c, closes c (trace (SendRequestBytes req n timeout)) = 0.
Proof.
  intros Hc W. destruct (Connect_returns_conn_trace _ _ _ Hc) as [Hcl _].
  destruct (Connect n timeout) as [tr o] eqn:E. simpl in Hc, Hcl. subst o.
  rewrite (SendRequestBytes_connected req _ _ _ _ E). cbv zeta. rewrite W.
  split; [reflexivity|]. intros c. cbn [trace fst].
  rewrite closes_cons, closes_app, Hcl. reflexivity.
Qed.

(** When the write succeeds, [SendRequestBytes] closes the connection
    once, whether or not the read found a newline. *)
Lemma SendRequestBytes_closes_after_read
    (req : list byte) (n : Node) (timeout : Duration) (k : Conn) :
  outcome (Connect n timeout) = Ret (Some k, None) ->
  WriteErr k (req ++ [newline]) = None ->
  closes (Id k) (trace (SendRequestBytes req n timeout)) = 1.
Proof.
  intros Hc W. destruct (Connect_returns_conn_trace _ _ _ Hc) as [Hcl _].
  destruct (Connect n timeout) as [tr o] eqn:E. simpl in Hc, Hcl. subst o.
  rewrite (SendRequestBytes_connected req _ _ _ _ E). cbv zeta. rewrite W.
  cbn [trace fst].
  rewrite closes_app, closes_cons, closes_app, Hcl.
  change [EvRead (Id k);
          EvStdout (string_of_list_byte
                      (fst (ReadBytes newline (Incoming k) (StreamErr k))) ++ nl);
          EvClose (Id k)]
    with ([EvRead (Id k);
           EvStdout (string_of_list_byte
                       (fst (ReadBytes newline (Incoming k) (StreamErr k))) ++ nl)]
          ++ [EvClose (Id k)])%list.
  rewrite closes_app, closes_EvClose. reflexivity.
Qed.

(** When the stream ends before a newline, [SendRequestBytes] returns
    what was read as its result, with no error. *)
Lemma SendRequestBytes_short_read
    (req : list byte) (n : Node) (timeout : Duration) (k : Conn) :
  outcome (Connect n timeout) = Ret (Some k, None) ->
  WriteErr k (req ++ [newline]) = None ->
  ~ In newline (Incoming k) ->
  outcome (SendRequestBytes req n timeout) = Ret (Incoming k, None).
Proof.
  intros Hc W Hnot.
  destruct (Connect n timeout) as [tr o] eqn:E. simpl in Hc. subst o.
  rewrite (SendRequestBytes_connected req _ _ _ _ E). cbv zeta.
  rewrite W, ReadBytes_no_delim by exact Hnot. reflexivity.
Qed.

(** [SendRequest] closes the connection once on either exit after
    [Send], provided [Send] returns and does not close it itself. *)
Lemma SendRequest_closes_once
    (req : JSONRPCRequest) (n : Node) (timeout : Duration) (k : Conn)
    (resp : list byte) (err : option error) :
  outcome (Connect n timeout) = Ret (Some k, None) ->
  outcome (Send req (Some k)) = Ret (resp, err) ->
  closes (Id k) (trace (Send req (Some k))) = 0 ->
  closes (Id k) (trace (SendRequest req n timeout)) = 1.
Proof.
  intros Hc Hs Hn. destruct (Connect_returns_conn_trace _ _ _ Hc) as [Hcl _].
  specialize (Hcl (Id k)).
  unfold SendRequest.
  destruct (Connect n timeout) as [tr o] eqn:E. simpl in Hc, Hcl. subst o.
  destruct (Send req (Some k)) as [ts os] eqn:ES. simpl in Hs, Hn. subst os.
  destruct err as [e|];
    cbv [bind emit ret InfoLogger_Printf ErrorLogger_Printf conn_Close trace fst];
    rewrite ES; destruct (CloseErr k); cbn [app];
    repeat (rewrite closes_cons || rewrite closes_app);
    rewrite Hcl, Hn; cbn [is_close]; rewrite Nat.eqb_refl; reflexivity.
Qed.

(** ** Properties of peer discovery *)

(** C5. When the exchange of [GetPeerInfo] succeeded and its payload
    does not decode, the call returns the error of the decoder with
    the nil sequence of nodes; no successful result, which carries no
    error, equals it, the one with zero peers included. *)
Theorem GetPeerInfo_decode_error
    (n : Node) (reqID : Z) (timeout : Duration) (resp : list byte) (e : error) :
  IsOnion n = false ->
  outcome (SendRequest (NewPeerRequest reqID) n timeout) = Ret (resp, None) ->
  json_Unmarshal resp = inl e ->
  outcome (GetPeerInfo n reqID timeout) = Ret ([], Some e) /\
  forall peers : list Node,
    outcome (GetPeerInfo n reqID timeout) <> Ret (peers, None).
Proof.
  intros Hon Hs Hd.
  assert (H : outcome (GetPeerInfo n reqID timeout) = Ret ([], Some e)).
  { unfold GetPeerInfo. rewrite Hon.
    destruct (SendRequest (NewPeerRequest reqID) n timeout) as [ts os].
    simpl in Hs. subst os. unfold bind. rewrite Hd. reflexivity. }
  split; [exact H|]. intros peers. rewrite H. discriminate.
Qed.

(** ** Further properties of the connection functions *)

Lemma outcome_bind {A B : Type} (m : IO A) (f : A -> IO B) :
  outcome (bind m f)
  = match outcome m with
    | Ret a => outcome (f a)
    | Panic reason => Panic reason
    end.
Proof.
  destruct m as [t [a|reason]]; simpl; [|reflexivity].
  destruct (f a); reflexivity.
Qed.

Lemma trace_bind {A B : Type} (m : IO A) (f : A -> IO B) :
  trace (bind m f)
  = match outcome m with
    | Ret a => (trace m ++ trace (f a))%list
    | Panic _ => trace m
    end.
Proof.
  destruct m as [t [a|reason]]; simpl; [|reflexivity].
  destruct (f a); reflexivity.
Qed.

Lemma net_events_app (t1 t2 : list Event) :
  net_events (t1 ++ t2) = (net_events t1 ++ net_events t2)%list.
Proof.
  apply filter_app.
Qed.

Lemma logs_error_app (t1 t2 : list Event) :
  logs_error (t1 ++ t2) = logs_error t1 || logs_error t2.
Proof.
  apply existsb_app.
Qed.

(** [GetTLSConn] and [GetConn] always return, and what they return is
    a connection with the nil error or the nil connection with an
    error, never both and never neither. *)
Theorem dial_helpers_conn_xor_error (n : Node) (timeout : Duration) :
  ((exists k, outcome (GetTLSConn n timeout) = Ret (Some k, None)) \/
   (exists e, outcome (GetTLSConn n timeout) = Ret (None, Some e))) /\
  ((exists k, outcome (GetConn n timeout) = Ret (Some k, None)) \/
   (exists e, outcome (GetConn n timeout) = Ret (None, Some e))).
Proof.
  unfold GetTLSConn, GetConn, dial_TLS, dial_TCP. cbv zeta.
  destruct (IsOnion n); [split; right; eexists; reflexivity|].
  split.
  - destruct (SupportsTLS n); [|right; eexists; reflexivity].
    destruct (tls_DialWithDialer _ _ _ _);
      [left|right]; eexists; reflexivity.
  - destruct (net_DialTimeout _ _ _);
      [left|right]; eexists; reflexivity.
Qed.

(** [GetTLSConn] on a node that is no onion node and advertises TLS
    makes one dial, over TLS, to [Host:SSLPort] with the caller's
    timeout, and nothing else on the network; it returns the dialled
    connection, or the error of the dial behind the text that names the
    address. *)
Theorem GetTLSConn_one_dial (n : Node) (timeout : Duration) :
  IsOnion n = false -> SupportsTLS n = true ->
  net_events (trace (GetTLSConn n timeout))
    = [EvDial TLS "tcp" (Host n ++ ":" ++ fmt_d (Z.of_N (SSLPort n))) timeout] /\
  outcome (GetTLSConn n timeout)
    = match tls_DialWithDialer timeout "tcp"
              (Host n ++ ":" ++ fmt_d (Z.of_N (SSLPort n))) true with
      | inl k => Ret (Some k, None)
      | inr e =>
          Ret (None, Some ("could not establish TLS connection to "
                           ++ (Host n ++ ":" ++ fmt_d (Z.of_N (SSLPort n)))
                           ++ ": " ++ e))
      end.
Proof.
  intros Hon Htls. unfold GetTLSConn, dial_TLS. rewrite Hon, Htls.
  cbv zeta. cbn [negb].
  destruct (tls_DialWithDialer _ _ _ _); split; reflexivity.
Qed.

(** [GetConn] on a node that is no onion node makes one dial, over
    plain TCP, to [Host:TCPPort] with the caller's timeout, whether or
    not the node advertises TLS; it returns the dialled connection, or
    the error of the dial behind a text that names the address (and
    says TLS). *)
Theorem GetConn_one_dial (n : Node) (timeout : Duration) :
  IsOnion n = false ->
  net_events (trace (GetConn n timeout))
    = [EvDial TCP "tcp" (Host n ++ ":" ++ fmt_d (Z.of_N (TCPPort n))) timeout] /\
  outcome (GetConn n timeout)
    = match net_DialTimeout "tcp"
              (Host n ++ ":" ++ fmt_d (Z.of_N (TCPPort n))) timeout with
      | inl k => Ret (Some k, None)
      | inr e =>
          Ret (None, Some ("could not establish TLS connection to "
                           ++ (Host n ++ ":" ++ fmt_d (Z.of_N (TCPPort n)))
                           ++ ": " ++ e))
      end.
Proof.
  intros Hon. unfold GetConn, dial_TCP. rewrite Hon. cbv zeta.
  destruct (net_DialTimeout _ _ _); split; reflexivity.
Qed.

(** The outcome of [Connect] in full.  An onion node gets the error of
    the unsupported transport; any other node gets the connection of
    its one dial when the dial succeeds, and a panic when it fails: no
    error of a dial is ever returned.  The network sees that one dial,
    with the caller's timeout, and nothing more. *)
Theorem Connect_outcome (n : Node) (timeout : Duration) :
  outcome (Connect n timeout)
    = (if IsOnion n
       then Ret (None, Some (errors_New "to support not yet implemented"))
       else match chosen_dial n timeout with
            | inl k => Ret (Some k, None)
            | inr _ => Panic nil_dereference
            end) /\
  net_events (trace (Connect n timeout))
    = (if IsOnion n then []
       else [EvDial (chosen_transport n) "tcp" (chosen_addr n) timeout]).
Proof.
  unfold Connect, GetTLSConn, GetConn, dial_TLS, dial_TCP,
    chosen_dial, chosen_transport, chosen_addr. cbv zeta.
  destruct (IsOnion n); [split; reflexivity|].
  destruct (SupportsTLS n); cbn [negb].
  - destruct (tls_DialWithDialer _ _ _ _); split; reflexivity.
  - destruct (net_DialTimeout _ _ _); split; reflexivity.
Qed.

(** ** Further properties of the exchange *)

Lemma net_events_cons (e : Event) (t : list Event) :
  net_events (e :: t) = if is_net e then e :: net_events t else net_events t.
Proof.
  reflexivity.
Qed.

Lemma stdouts_app (t1 t2 : list Event) :
  stdouts (t1 ++ t2) = (stdouts t1 ++ stdouts t2)%list.
Proof.
  induction t1 as [|e t1 IH]; [reflexivity|].
  destruct e; simpl; rewrite IH; reflexivity.
Qed.

Lemma stdouts_cons_log (lv : Level) (msg : string) (t : list Event) :
  stdouts (EvLog lv msg :: t) = stdouts t.
Proof.
  reflexivity.
Qed.

(** A call of [Connect] that returns a connection has logged nothing at
    the error level, and no call of [Connect] prints on standard
    output. *)
Lemma Connect_quiet (n : Node) (timeout : Duration) :
  stdouts (trace (Connect n timeout)) = [] /\
  forall k, outcome (Connect n timeout) = Ret (Some k, None) ->
            logs_error (trace (Connect n timeout)) = false.
Proof.
  unfold Connect, GetTLSConn, GetConn, dial_TLS, dial_TCP. cbv zeta.
  destruct (IsOnion n); [split; [reflexivity|discriminate]|].
  destruct (SupportsTLS n); cbn [negb].
  - destruct (tls_DialWithDialer _ _ _ _);
      (split; [reflexivity|]); intros k' H; [reflexivity|discriminate].
  - destruct (net_DialTimeout _ _ _);
      (split; [reflexivity|]); intros k' H; [reflexivity|discriminate].
Qed.

(** On an onion node both exchanges give up before the network:
    [SendRequest] returns the error of [Connect] behind the text that
    names the host, [SendRequestBytes] returns it as it is, [Send] is
    not run and the trace holds two log lines. *)
Theorem exchange_onion_no_io
    (req : JSONRPCRequest) (reqBytes : list byte) (n : Node) (timeout : Duration) :
  IsOnion n = true ->
  SendRequest req n timeout
    = ([EvLog LvInfo ("attempting to connect to " ++ Host n ++ nl);
        EvLog LvError ("failed to connect to " ++ Host n
                       ++ ": tor support not yet implemented" ++ nl)],
       Ret ([], Some ("could not connect to " ++ Host n
                      ++ ": to support not yet implemented"))) /\
  SendRequestBytes reqBytes n timeout
    = ([EvLog LvInfo ("attempting to connect to " ++ Host n ++ nl);
        EvLog LvError ("failed to connect to " ++ Host n
                       ++ ": tor support not yet implemented" ++ nl)],
       Ret ([], Some (errors_New "to support not yet implemented"))).
Proof.
  intros Hon. unfold SendRequest, SendRequestBytes, Connect. rewrite Hon.
  split; reflexivity.
Qed.

(** When the one dial of a node that is no onion node fails, the panic
    of [Connect] goes through its callers: [SendRequest],
    [SendRequestBytes] and [GetPeerInfo] panic too, and none of them
    returns an error for the failed dial. *)
Theorem exchange_dial_failure_panics
    (req : JSONRPCRequest) (reqBytes : list byte) (reqID : Z)
    (n : Node) (timeout : Duration) (e : error) :
  IsOnion n = false ->
  chosen_dial n timeout = inr e ->
  outcome (SendRequest req n timeout) = Panic nil_dereference /\
  outcome (SendRequestBytes reqBytes n timeout) = Panic nil_dereference /\
  outcome (GetPeerInfo n reqID timeout) = Panic nil_dereference.
Proof.
  intros Hon Hd.
  assert (HP : outcome (Connect n timeout) = Panic nil_dereference).
  { apply Connect_failed_dial_panics with (e := e); [exact Hon|].
    unfold chosen_dial, chosen_addr in Hd.
    destruct (SupportsTLS n); exact Hd. }
  assert (HS : forall r, outcome (SendRequest r n timeout) = Panic nil_dereference).
  { intros r. unfold SendRequest. rewrite outcome_bind.
    cbn [InfoLogger_Printf emit outcome snd].
    rewrite outcome_bind, HP. reflexivity. }
  split; [apply HS|]. split.
  - unfold SendRequestBytes. rewrite outcome_bind.
    cbn [InfoLogger_Printf emit outcome snd].
    rewrite outcome_bind, HP. reflexivity.
  - unfold GetPeerInfo. rewrite Hon, outcome_bind, HS. reflexivity.
Qed.

(** [SendRequest] once [Connect] has returned a connection and [Send]
    returns: the response of [Send] is returned as it is when [Send]
    gives no error, and the error of [Send] is returned with the nil
    bytes otherwise, whatever bytes came with it; on the network the
    call is the dial, then what [Send] does, then one [Close] of the
    connection as the last event. *)
Theorem SendRequest_connected
    (req : JSONRPCRequest) (n : Node) (timeout : Duration) (k : Conn)
    (resp : list byte) (err : option error) :
  outcome (Connect n timeout) = Ret (Some k, None) ->
  outcome (Send req (Some k)) = Ret (resp, err) ->
  outcome (SendRequest req n timeout)
    = Ret (match err with Some _ => [] | None => resp end, err) /\
  net_events (trace (SendRequest req n timeout))
    = (net_events (trace (Connect n timeout))
       ++ net_events (trace (Send req (Some k)))
       ++ [EvClose (Id k)])%list.
Proof.
  intros Hc Hs. unfold SendRequest.
  destruct (Connect n timeout) as [tr o]. simpl in Hc. subst o.
  destruct (Send req (Some k)) as [ts os] eqn:ES. simpl in Hs. subst os.
  destruct err as [e|];
    cbv [bind emit ret InfoLogger_Printf ErrorLogger_Printf conn_Close
         outcome trace fst snd];
    rewrite ES; destruct (CloseErr k); cbn [app]; (split; [reflexivity|]);
    repeat (rewrite net_events_cons || rewrite net_events_app);
    reflexivity.
Qed.

(** When [Send] fails and the [Close] that follows fails too, the error
    of [Close] goes to the error logger, in a line that names the host
    and the request, and the error of [Send] is the one returned. *)
Theorem SendRequest_close_failure_logged
    (req : JSONRPCRequest) (n : Node) (timeout : Duration) (k : Conn)
    (resp : list byte) (e ce : error) :
  outcome (Connect n timeout) = Ret (Some k, None) ->
  outcome (Send req (Some k)) = Ret (resp, Some e) ->
  CloseErr k = Some ce ->
  In (EvLog LvError ("could not close connection to: " ++ Host n
                     ++ " after failed request ID: " ++ fmt_d (ID req)
                     ++ ": " ++ ce ++ nl))
     (trace (SendRequest req n timeout)) /\
  outcome (SendRequest req n timeout) = Ret ([], Some e).
Proof.
  intros Hc Hs Hce. unfold SendRequest.
  destruct (Connect n timeout) as [tr o]. simpl in Hc. subst o.
  destruct (Send req (Some k)) as [ts os] eqn:ES. simpl in Hs. subst os.
  cbv [bind emit ret InfoLogger_Printf ErrorLogger_Printf conn_Close
       outcome trace fst snd].
  rewrite ES, Hce. cbn [app]. split; [|reflexivity].
  right. apply in_or_app. right. right. apply in_or_app. right.
  right. right. left. reflexivity.
Qed.

(** The network events of [SendRequestBytes] once [Connect] has
    returned a connection, in order: the dial, one write of the request
    and a newline, and, when the write succeeded, one read and then one
    [Close]; a failed write is the last event. *)
Theorem SendRequestBytes_net_sequence
    (req : list byte) (n : Node) (timeout : Duration) (k : Conn) :
  outcome (Connect n timeout) = Ret (Some k, None) ->
  net_events (trace (SendRequestBytes req n timeout))
    = EvDial (chosen_transport n) "tcp" (chosen_addr n) timeout
      :: EvWrite (Id k) (req ++ [newline])
      :: match WriteErr k (req ++ [newline]) with
         | None => [EvRead (Id k); EvClose (Id k)]
         | Some _ => []
         end.
Proof.
  intros Hc. destruct (Connect_returns_conn _ _ _ Hc) as [Hon _].
  pose proof (Connect_net_events n timeout Hon) as Hn.
  destruct (Connect n timeout) as [tr o] eqn:E. simpl in Hc, Hn. subst o.
  rewrite (SendRequestBytes_connected req _ _ _ _ E). cbv zeta.
  destruct (WriteErr k (req ++ [newline])); cbn [trace fst];
    repeat (rewrite net_events_cons || rewrite net_events_app);
    rewrite Hn; reflexivity.
Qed.

(** A failed write of [SendRequestBytes] leaves no line of the error
    logger: the error is returned and nothing at the error level is
    logged in the whole call. *)
Theorem SendRequestBytes_write_failure_unlogged
    (req : list byte) (n : Node) (timeout : Duration) (k : Conn) (e : error) :
  outcome (Connect n timeout) = Ret (Some k, None) ->
  WriteErr k (req ++ [newline]) = Some e ->
  logs_error (trace (SendRequestBytes req n timeout)) = false.
Proof.
  intros Hc W. pose proof (proj2 (Connect_quiet n timeout) k Hc) as Hq.
  destruct (Connect n timeout) as [tr o] eqn:E. simpl in Hc, Hq. subst o.
  rewrite (SendRequestBytes_connected req _ _ _ _ E). cbv zeta. rewrite W.
  cbn [trace fst].
  change (logs_error (EvLog LvInfo ("attempting to connect to " ++ Host n ++ nl)
                      :: tr ++ ?t))
    with (logs_error (tr ++ t)).
  rewrite logs_error_app, Hq. reflexivity.
Qed.

(** [SendRequestBytes] prints on standard output: the connection as
    soon as it has one and, when the write succeeded, the bytes it read
    as a text and a newline, whether or not the read found its
    newline. *)
Theorem SendRequestBytes_prints
    (req : list byte) (n : Node) (timeout : Duration) (k : Conn) :
  outcome (Connect n timeout) = Ret (Some k, None) ->
  stdouts (trace (SendRequestBytes req n timeout))
    = (Repr k ++ nl)
      :: match WriteErr k (req ++ [newline]) with
         | None =>
             [string_of_list_byte
                (fst (ReadBytes newline (Incoming k) (StreamErr k))) ++ nl]
         | Some _ => []
         end.
Proof.
  intros Hc. pose proof (proj1 (Connect_quiet n timeout)) as Hq.
  destruct (Connect n timeout) as [tr o] eqn:E. simpl in Hc, Hq. subst o.
  rewrite (SendRequestBytes_connected req _ _ _ _ E). cbv zeta.
  destruct (WriteErr k (req ++ [newline])); cbn [trace fst];
    repeat (rewrite stdouts_app || rewrite stdouts_cons_log);
    rewrite Hq; reflexivity.
Qed.

(** Whenever an exchange returns an error, the bytes it returns with it
    are nil. *)
Theorem exchange_error_has_no_bytes
    (req : JSONRPCRequest) (reqBytes : list byte) (n : Node) (timeout : Duration)
    (resp : list byte) (e : error) :
  (outcome (SendRequest req n timeout) = Ret (resp, Some e) -> resp = []) /\
  (outcome (SendRequestBytes reqBytes n timeout) = Ret (resp, Some e) -> resp = []).
Proof.
  split.
  - unfold SendRequest.
    destruct (Connect n timeout) as [tr [[c [ce|]]|reason]];
      cbv [bind emit ret InfoLogger_Printf ErrorLogger_Printf outcome snd];
      [intros H; inversion H; reflexivity| |discriminate].
    destruct (Send req c) as [ts [[rs [se|]]|reason]];
      destruct c as [k|]; cbv [conn_Close bind emit ret panic];
      try discriminate.
    destruct (CloseErr k); intros H; inversion H; reflexivity.
  - unfold SendRequestBytes.
    destruct (Connect n timeout) as [tr [[c [ce|]]|reason]];
      cbv [bind emit ret InfoLogger_Printf outcome snd];
      [intros H; inversion H; reflexivity| |discriminate].
    destruct c as [k|];
      cbv [conn_Println fmt_Println fmt_Fprintf_s bufio_ReadBytes conn_Close
           bind emit ret panic]; [|discriminate].
    destruct (WriteErr k _); [intros H; inversion H; reflexivity|].
    destruct (ReadBytes _ _ _). discriminate.
Qed.

(** ** Further properties of peer discovery and of the error logger *)

Lemma logs_error_cons (e : Event) (t : list Event) :
  logs_error (e :: t) = is_error_log e || logs_error t.
Proof.
  reflexivity.
Qed.

(** Whenever [GetPeerInfo] returns an error, the nodes it returns with
    it are nil: the nodes of a failed parse are dropped too. *)
Theorem GetPeerInfo_error_has_no_peers
    (n : Node) (reqID : Z) (timeout : Duration) (peers : list Node) (e : error) :
  outcome (GetPeerInfo n reqID timeout) = Ret (peers, Some e) -> peers = [].
Proof.
  unfold GetPeerInfo.
  destruct (IsOnion n); [intros H; inversion H; reflexivity|].
  rewrite outcome_bind.
  destruct (outcome (SendRequest (NewPeerRequest reqID) n timeout))
    as [[resp [se|]]|reason]; [intros H; inversion H; reflexivity| |discriminate].
  destruct (json_Unmarshal resp) as [de|spr];
    [intros H; inversion H; reflexivity|].
  destruct (ParseServerPeersSubscriptionResp spr) as [ps [pe|]];
    [intros H; inversion H; reflexivity|discriminate].
Qed.

(** [GetPeerInfo] succeeds with given nodes exactly when the node is no
    onion node, the exchange returned bytes without error, the bytes
    decode, and the parser gives those nodes without error; the nodes
    returned are the parser's. *)
Theorem GetPeerInfo_success_iff
    (n : Node) (reqID : Z) (timeout : Duration) (peers : list Node) :
  outcome (GetPeerInfo n reqID timeout) = Ret (peers, None) <->
  IsOnion n = false /\
  exists (resp : list byte) (spr : ServerPeersSubscriptionResp),
    outcome (SendRequest (NewPeerRequest reqID) n timeout) = Ret (resp, None) /\
    json_Unmarshal resp = inr spr /\
    ParseServerPeersSubscriptionResp spr = (peers, None).
Proof.
  unfold GetPeerInfo. split.
  - destruct (IsOnion n); [discriminate|].
    rewrite outcome_bind.
    destruct (outcome (SendRequest (NewPeerRequest reqID) n timeout))
      as [[resp [se|]]|reason]; [discriminate| |discriminate].
    destruct (json_Unmarshal resp) as [de|spr] eqn:D; [discriminate|].
    destruct (ParseServerPeersSubscriptionResp spr) as [ps [pe|]] eqn:P;
      [discriminate|].
    intros H. inversion H. subst ps.
    split; [reflexivity|]. exists resp, spr. auto.
  - intros [Hon [resp [spr [Hs [D P]]]]].
    rewrite Hon, outcome_bind, Hs, D, P. reflexivity.
Qed.

(** No error is returned in silence by [GetTLSConn], [GetConn],
    [Connect], [SendRequest] or [GetPeerInfo]: whenever one of them
    returns an error, the trace of the call holds a line of the error
    logger. *)
Theorem returned_errors_are_logged
    (req : JSONRPCRequest) (reqID : Z) (n : Node) (timeout : Duration) :
  (forall c e, outcome (GetTLSConn n timeout) = Ret (c, Some e) ->
               logs_error (trace (GetTLSConn n timeout)) = true) /\
  (forall c e, outcome (GetConn n timeout) = Ret (c, Some e) ->
               logs_error (trace (GetConn n timeout)) = true) /\
  (forall c e, outcome (Connect n timeout) = Ret (c, Some e) ->
               logs_error (trace (Connect n timeout)) = true) /\
  (forall b e, outcome (SendRequest req n timeout) = Ret (b, Some e) ->
               logs_error (trace (SendRequest req n timeout)) = true) /\
  (forall p e, outcome (GetPeerInfo n reqID timeout) = Ret (p, Some e) ->
               logs_error (trace (GetPeerInfo n reqID timeout)) = true).
Proof.
  assert (HC : forall c e, outcome (Connect n timeout) = Ret (c, Some e) ->
                           logs_error (trace (Connect n timeout)) = true).
  { unfold Connect, GetTLSConn, GetConn, dial_TLS, dial_TCP. cbv zeta.
    destruct (IsOnion n); [reflexivity|].
    destruct (SupportsTLS n); cbn [negb].
    - destruct (tls_DialWithDialer _ _ _ _); discriminate.
    - destruct (net_DialTimeout _ _ _); discriminate. }
  split; [|split; [|split; [exact HC|split]]].
  - unfold GetTLSConn, dial_TLS. cbv zeta.
    destruct (IsOnion n); [reflexivity|].
    destruct (SupportsTLS n); cbn [negb]; [|reflexivity].
    destruct (tls_DialWithDialer _ _ _ _); [discriminate|reflexivity].
  - unfold GetConn, dial_TCP. cbv zeta.
    destruct (IsOnion n); [reflexivity|].
    destruct (net_DialTimeout _ _ _); [discriminate|reflexivity].
  - intros b e. unfold SendRequest.
    destruct (Connect n timeout) as [tr [[c [ce|]]|reason]];
      cbv [bind emit ret InfoLogger_Printf ErrorLogger_Printf outcome trace fst snd].
    + intros _. specialize (HC c ce eq_refl). simpl in HC.
      cbn [app]. rewrite logs_error_cons, logs_error_app, HC. reflexivity.
    + destruct (Send req c) as [ts [[rs [se|]]|reason]];
        destruct c as [k|]; cbv [conn_Close bind emit ret panic];
        try discriminate.
      destruct (CloseErr k); intros _; cbn [app];
        repeat (rewrite logs_error_cons || rewrite logs_error_app);
        destruct (logs_error tr), (logs_error ts); reflexivity.
    + discriminate.
  - intros p e. unfold GetPeerInfo.
    destruct (IsOnion n); [reflexivity|].
    destruct (SendRequest (NewPeerRequest reqID) n timeout)
      as [ts [[resp [se|]]|reason]];
      cbv [bind emit ret InfoLogger_Printf ErrorLogger_Printf outcome trace fst snd];
      [| |discriminate].
    + intros _. rewrite logs_error_app.
      destruct (logs_error ts); reflexivity.
    + destruct (json_Unmarshal resp) as [de|spr].
      * intros _. rewrite logs_error_app.
        destruct (logs_error ts); reflexivity.
      * destruct (ParseServerPeersSubscriptionResp spr) as [ps [pe|]];
          [|discriminate].
        intros _. rewrite logs_error_app.
        destruct (logs_error ts); reflexivity.
Qed.

End Client.

(** ** A failing [Close] and the result of [SendRequest] *)

Section CloseFailure.

Variable IsOnion : Node -> bool.
Variable SupportsTLS : Node -> bool.
Variable tls_DialWithDialer : Duration -> string -> string -> bool -> Conn + error.
Variable net_DialTimeout : string -> string -> Duration -> Conn + error.
Variable Send : JSONRPCRequest -> option Conn -> IO (list byte * option error).

(** [Send] is handed the connection but leaves its release to
    [SendRequest]: what it does is the same whatever [Close] would
    answer. *)
Hypothesis Send_leaves_close :
  forall (req : JSONRPCRequest) (k : Conn) (ce : option error),
    Send req (Some (with_close ce k)) = Send req (Some k).

Lemma unlogged_app (t1 t2 : list Event) :
  unlogged (t1 ++ t2) = (unlogged t1 ++ unlogged t2)%list.
Proof.
  apply filter_app.
Qed.

Lemma unlogged_cons (e : Event) (t : list Event) :
  unlogged (e :: t) = if is_log e then unlogged t else e :: unlogged t.
Proof.
  unfold unlogged. simpl. destruct (is_log e); reflexivity.
Qed.

(** C8. For every [SendRequest] call, what [Close] answers never
    changes the result: the response bytes or the error returned are
    the same on two networks that differ only in the answer [ce1] or
    [ce2] of [Close], and the two traces differ by log events only. *)
Theorem SendRequest_close_failure_never_changes_result
    (req : JSONRPCRequest) (n : Node) (timeout : Duration)
    (ce1 ce2 : option error) :
  let run (ce : option error) :=
    SendRequest IsOnion SupportsTLS
      (fun t nw addr insecure => closing ce (tls_DialWithDialer t nw addr insecure))
      (fun nw addr t => closing ce (net_DialTimeout nw addr t))
      Send req n timeout in
  outcome (run ce1) = outcome (run ce2) /\
  unlogged (trace (run ce1)) = unlogged (trace (run ce2)).
Proof.
  unfold SendRequest, Connect, GetTLSConn, GetConn, dial_TLS, dial_TCP.
  cbv zeta.
  destruct (IsOnion n); [split; reflexivity|].
  destruct (SupportsTLS n); cbv zeta; cbn [negb].
  - destruct (tls_DialWithDialer timeout "tcp"
                (Host n ++ ":" ++ fmt_d (Z.of_N (SSLPort n))) true) as [k|e];
      cbn [closing]; [|split; reflexivity].
    cbv [bind emit ret InfoLogger_Printf ErrorLogger_Printf conn_Close
         outcome trace fst snd].
    rewrite !Send_leaves_close.
    destruct (Send req (Some k)) as [ts [[resp [e|]]|reason]];
      destruct ce1, ce2; cbn [with_close CloseErr Id app]; split;
      try reflexivity;
      repeat (rewrite unlogged_cons || rewrite unlogged_app);
      reflexivity.
  - destruct (net_DialTimeout "tcp"
                (Host n ++ ":" ++ fmt_d (Z.of_N (TCPPort n))) timeout) as [k|e];
      cbn [closing]; [|split; reflexivity].
    cbv [bind emit ret InfoLogger_Printf ErrorLogger_Printf conn_Close
         outcome trace fst snd].
    rewrite !Send_leaves_close.
    destruct (Send req (Some k)) as [ts [[resp [e|]]|reason]];
      destruct ce1, ce2; cbn [with_close CloseErr Id app]; split;
      try reflexivity;
      repeat (rewrite unlogged_cons || rewrite unlogged_app);
      reflexivity.
Qed.

End CloseFailure.

(** ** Where the error of [Close] is dropped *)

Section CloseDiscarded.

Variable IsOnion : Node -> bool.
Variable SupportsTLS : Node -> bool.
Variable tls_DialWithDialer : Duration -> string -> string -> bool -> Conn + error.
Variable net_DialTimeout : string -> string -> Duration -> Conn + error.
Variable Send : JSONRPCRequest -> option Conn -> IO (list byte * option error).

Hypothesis Send_leaves_close :
  forall (req : JSONRPCRequest) (k : Conn) (ce : option error),
    Send req (Some (with_close ce k)) = Send req (Some k).

(** [SendRequestBytes] drops what [Close] answers: on two networks
    that differ only in that answer the call has the same outcome and
    the same trace, log lines included. *)
Theorem SendRequestBytes_ignores_close_error
    (req : list byte) (n : Node) (timeout : Duration) (ce1 ce2 : option error) :
  let run (ce : option error) :=
    SendRequestBytes IsOnion SupportsTLS
      (fun t nw addr insecure => closing ce (tls_DialWithDialer t nw addr insecure))
      (fun nw addr t => closing ce (net_DialTimeout nw addr t))
      req n timeout in
  run ce1 = run ce2.
Proof.
  unfold SendRequestBytes, Connect, GetTLSConn, GetConn, dial_TLS, dial_TCP.
  cbv zeta.
  destruct (IsOnion n); [reflexivity|].
  destruct (SupportsTLS n); cbn [negb].
  - destruct (tls_DialWithDialer timeout "tcp"
                (Host n ++ ":" ++ fmt_d (Z.of_N (SSLPort n))) true) as [k|e];
      cbn [closing]; [|reflexivity].
    cbv [bind emit ret InfoLogger_Printf ErrorLogger_Printf conn_Close
         conn_Println fmt_Println fmt_Fprintf_s bufio_ReadBytes].
    cbn [with_close Id Repr WriteErr Incoming StreamErr CloseErr].
    destruct (WriteErr k _); [reflexivity|].
    destruct (ReadBytes _ _ _). reflexivity.
  - destruct (net_DialTimeout "tcp"
                (Host n ++ ":" ++ fmt_d (Z.of_N (TCPPort n))) timeout) as [k|e];
      cbn [closing]; [|reflexivity].
    cbv [bind emit ret InfoLogger_Printf ErrorLogger_Printf conn_Close
         conn_Println fmt_Println fmt_Fprintf_s bufio_ReadBytes].
    cbn [with_close Id Repr WriteErr Incoming StreamErr CloseErr].
    destruct (WriteErr k _); [reflexivity|].
    destruct (ReadBytes _ _ _). reflexivity.
Qed.

(** When [SendRequest] succeeds, what [Close] answered leaves no mark:
    on two networks that differ only in that answer the two traces are
    the same, so that a failed [Close] after a good exchange is not
    even logged. *)
Theorem SendRequest_success_discards_close_error
    (req : JSONRPCRequest) (n : Node) (timeout : Duration)
    (ce1 ce2 : option error) (resp : list byte) :
  let run (ce : option error) :=
    SendRequest IsOnion SupportsTLS
      (fun t nw addr insecure => closing ce (tls_DialWithDialer t nw addr insecure))
      (fun nw addr t => closing ce (net_DialTimeout nw addr t))
      Send req n timeout in
  outcome (run ce1) = Ret (resp, None) ->
  trace (run ce1) = trace (run ce2).
Proof.
  unfold SendRequest, Connect, GetTLSConn, GetConn, dial_TLS, dial_TCP.
  cbv zeta.
  destruct (IsOnion n); [discriminate|].
  destruct (SupportsTLS n); cbn [negb].
  - destruct (tls_DialWithDialer timeout "tcp"
                (Host n ++ ":" ++ fmt_d (Z.of_N (SSLPort n))) true) as [k|e];
      cbn [closing]; [|discriminate].
    cbv [bind emit ret InfoLogger_Printf ErrorLogger_Printf conn_Close
         outcome trace fst snd].
    rewrite !Send_leaves_close.
    destruct (Send req (Some k)) as [ts [[rs [e|]]|reason]];
      [|reflexivity|discriminate].
    destruct ce1; discriminate.
  - destruct (net_DialTimeout "tcp"
                (Host n ++ ":" ++ fmt_d (Z.of_N (TCPPort n))) timeout) as [k|e];
      cbn [closing]; [|discriminate].
    cbv [bind emit ret InfoLogger_Printf ErrorLogger_Printf conn_Close
         outcome trace fst snd].
    rewrite !Send_leaves_close.
    destruct (Send req (Some k)) as [ts [[rs [e|]]|reason]];
      [|reflexivity|discriminate].
    destruct ce1; discriminate.
Qed.

End CloseDiscarded.

(** ** The client on concrete networks *)

(** C2. A node that advertises TLS and whose TLS dial is refused: the
    only dial of [Connect] is the TLS one, although plain TCP would have
    been accepted; but [Connect] does not return the error of the dial,
    it panics in the [Close] it calls on the nil connection. *)
Theorem Connect_tls_dial_failure_panics :
  outcome (Connect Double.IsOnion Double.SupportsTLS
             (Double.tlsFails Double.refused)
             (Double.tcpAccepts (Double.conn None "" None))
             Double.tlsNode Double.second)
    = Panic nil_dereference /\
  dials (trace (Connect Double.IsOnion Double.SupportsTLS
                  (Double.tlsFails Double.refused)
                  (Double.tcpAccepts (Double.conn None "" None))
                  Double.tlsNode Double.second))
    = [(TLS, "electrum.example:50002")].
Proof.
  split.
  - apply Connect_failed_dial_panics with (e := Double.refused); reflexivity.
  - apply (Connect_tls_only Double.IsOnion Double.SupportsTLS); reflexivity.
Qed.

(** C6. A TLS dial that fails in the handshake, after the TCP connection
    was made, and a plain dial that is refused: in both calls [Connect]
    panics, no error is returned and the trace holds no [Close]. *)
Theorem Connect_failure_after_dial_panics :
  Connect Double.IsOnion Double.SupportsTLS
    (Double.tlsFails Double.handshake) (Double.tcpFails Double.refused)
    Double.tlsNode Double.second
  = ([EvLog LvInfo ("electrum.example supports TLS, attempting TLS connection" ++ nl);
      EvDial TLS "tcp" "electrum.example:50002" Double.second;
      EvLog LvError ("error establishing TLS connection to: electrum.example:50002"
                     ++ nl ++ ": remote error: tls: handshake failure");
      EvLog LvError ("error establishing TLS connection to: electrum.example" ++ nl)],
     Panic nil_dereference) /\
  outcome (Connect Double.IsOnion Double.SupportsTLS
             (Double.tlsFails Double.handshake) (Double.tcpFails Double.refused)
             Double.plainNode Double.second)
    = Panic nil_dereference /\
  net_events (trace (Connect Double.IsOnion Double.SupportsTLS
                       (Double.tlsFails Double.handshake) (Double.tcpFails Double.refused)
                       Double.plainNode Double.second))
    = [EvDial TCP "tcp" "electrum.example:50001" Double.second].
Proof.
  repeat split; vm_compute; reflexivity.
Qed.

(** C3. A connection is established and the write on it fails:
    [SendRequestBytes] returns the error of the write and the trace
    holds no [Close] of the connection, where [SendRequest], on the same
    network and with a [Send] that fails in the same write, closes it
    once. *)
Theorem SendRequestBytes_write_failure_leaks_connection :
  outcome (Connect Double.IsOnion Double.SupportsTLS
             (Double.tlsFails Double.refused)
             (Double.tcpAccepts (Double.conn (Some Double.brokenPipe) "" None))
             Double.plainNode Double.second)
    = Ret (Some (Double.conn (Some Double.brokenPipe) "" None), None) /\
  outcome (SendRequestBytes Double.IsOnion Double.SupportsTLS
             (Double.tlsFails Double.refused)
             (Double.tcpAccepts (Double.conn (Some Double.brokenPipe) "" None))
             (Double.bytes "ping") Double.plainNode Double.second)
    = Ret ([], Some Double.brokenPipe) /\
  closes 1 (trace (SendRequestBytes Double.IsOnion Double.SupportsTLS
                     (Double.tlsFails Double.refused)
                     (Double.tcpAccepts (Double.conn (Some Double.brokenPipe) "" None))
                     (Double.bytes "ping") Double.plainNode Double.second))
    = 0 /\
  closes 1 (trace (SendRequest Double.IsOnion Double.SupportsTLS
                     (Double.tlsFails Double.refused)
                     (Double.tcpAccepts (Double.conn (Some Double.brokenPipe) "" None))
                     Double.Send (NewPeerRequest 7) Double.plainNode Double.second))
    = 1.
Proof.
  repeat split; vm_compute; reflexivity.
Qed.

(** C4. The peer sends [[1,2] and closes, or closes at once: no newline
    is read before the end of the stream, and [SendRequestBytes] returns
    the bytes read, or no byte, as its result with the nil error. *)
Theorem SendRequestBytes_truncated_response_is_success :
  outcome (SendRequestBytes Double.IsOnion Double.SupportsTLS
             (Double.tlsFails Double.refused)
             (Double.tcpAccepts (Double.conn None "[1,2" None))
             (Double.bytes "ping") Double.plainNode Double.second)
    = Ret (Double.bytes "[1,2", None) /\
  outcome (SendRequestBytes Double.IsOnion Double.SupportsTLS
             (Double.tlsFails Double.refused)
             (Double.tcpAccepts (Double.conn None "" None))
             (Double.bytes "ping") Double.plainNode Double.second)
    = Ret ([], None).
Proof.
  split.
  - apply (SendRequestBytes_short_read Double.IsOnion Double.SupportsTLS
             (Double.tlsFails Double.refused)
             (Double.tcpAccepts (Double.conn None "[1,2" None))
             (Double.bytes "ping") Double.plainNode Double.second
             (Double.conn None "[1,2" None)); try reflexivity.
    vm_compute. intuition discriminate.
  - vm_compute. reflexivity.
Qed.

(** ** Instances *)

Lemma onion_rejected_without_network_io_witness :
  Double.IsOnion Double.onionNode = true /\
  net_events (trace (GetPeerInfo Double.IsOnion Double.SupportsTLS
                       (Double.tlsAccepts (Double.conn None "" None))
                       (Double.tcpAccepts (Double.conn None "" None))
                       Double.Send (list byte) Double.json_Unmarshal Double.Parse
                       Double.onionNode 7 Double.second)) = [].
Proof.
  split; [reflexivity|].
  apply (onion_rejected_without_network_io Double.IsOnion Double.SupportsTLS
           (Double.tlsAccepts (Double.conn None "" None))
           (Double.tcpAccepts (Double.conn None "" None))
           Double.Send (list byte) Double.json_Unmarshal Double.Parse
           Double.onionNode 7 Double.second).
  reflexivity.
Defined.

Lemma Connect_plain_dials_any_port_witness :
  Double.IsOnion Double.zeroPortNode = false /\
  Double.SupportsTLS Double.zeroPortNode = false /\
  In (EvDial TCP "tcp" "electrum.example:0" Double.second)
     (trace (Connect Double.IsOnion Double.SupportsTLS
               (Double.tlsFails Double.refused) (Double.tcpFails Double.refused)
               Double.zeroPortNode Double.second)).
Proof.
  split; [reflexivity|]. split; [reflexivity|].
  apply (Connect_plain_dials_any_port Double.IsOnion Double.SupportsTLS
           (Double.tlsFails Double.refused) (Double.tcpFails Double.refused)
           Double.zeroPortNode Double.second); reflexivity.
Defined.

Lemma GetTLSConn_GetConn_guards_witness :
  (Double.SupportsTLS Double.plainNode = false /\
   net_events (trace (GetTLSConn Double.IsOnion Double.SupportsTLS
                        (Double.tlsAccepts (Double.conn None "" None))
                        Double.plainNode Double.second)) = []) /\
  (Double.IsOnion Double.onionNode = true /\
   outcome (GetConn Double.IsOnion (Double.tcpAccepts (Double.conn None "" None))
              Double.onionNode Double.second)
     = Ret (None, Some (errors_New "tor support not yet implemented"))).
Proof.
  split; (split; [reflexivity|]).
  - exact (proj2 (proj1 (GetTLSConn_GetConn_guards Double.IsOnion Double.SupportsTLS
                           (Double.tlsAccepts (Double.conn None "" None))
                           (Double.tcpAccepts (Double.conn None "" None))
                           Double.plainNode Double.second) eq_refl)).
  - exact (proj1 (proj2 (proj2 (proj2 (GetTLSConn_GetConn_guards
                           Double.IsOnion Double.SupportsTLS
                           (Double.tlsAccepts (Double.conn None "" None))
                           (Double.tcpAccepts (Double.conn None "" None))
                           Double.onionNode Double.second) eq_refl)))).
Defined.

Lemma GetPeerInfo_decode_error_witness :
  Double.IsOnion Double.plainNode = false /\
  outcome (SendRequest Double.IsOnion Double.SupportsTLS
             (Double.tlsFails Double.refused)
             (Double.tcpAccepts (Double.conn None ("garbage" ++ nl) None))
             Double.Send (NewPeerRequest 7) Double.plainNode Double.second)
    = Ret (Double.bytes ("garbage" ++ nl), None) /\
  Double.json_Unmarshal (Double.bytes ("garbage" ++ nl))
    = inl "invalid character looking for beginning of value" /\
  outcome (GetPeerInfo Double.IsOnion Double.SupportsTLS
             (Double.tlsFails Double.refused)
             (Double.tcpAccepts (Double.conn None ("garbage" ++ nl) None))
             Double.Send (list byte) Double.json_Unmarshal Double.Parse
             Double.plainNode 7 Double.second)
    = Ret ([], Some "invalid character looking for beginning of value").
Proof.
  split; [reflexivity|]. split; [reflexivity|]. split; [reflexivity|].
  apply (GetPeerInfo_decode_error Double.IsOnion Double.SupportsTLS
           (Double.tlsFails Double.refused)
           (Double.tcpAccepts (Double.conn None ("garbage" ++ nl) None))
           Double.Send (list byte) Double.json_Unmarshal Double.Parse
           Double.plainNode 7 Double.second
           (Double.bytes ("garbage" ++ nl))
           "invalid character looking for beginning of value");
    reflexivity.
Defined.

Lemma SendRequestBytes_framing_witness :
  outcome (Connect Double.IsOnion Double.SupportsTLS
             (Double.tlsAccepts (Double.conn None ("[1,2]" ++ nl ++ "tail") None))
             (Double.tcpFails Double.refused)
             Double.tlsNode Double.second)
    = Ret (Some (Double.conn None ("[1,2]" ++ nl ++ "tail") None), None) /\
  writes (trace (SendRequestBytes Double.IsOnion Double.SupportsTLS
                   (Double.tlsAccepts (Double.conn None ("[1,2]" ++ nl ++ "tail") None))
                   (Double.tcpFails Double.refused)
                   (Double.bytes "ping") Double.tlsNode Double.second))
    = [(1, (Double.bytes "ping" ++ [newline])%list)] /\
  outcome (SendRequestBytes Double.IsOnion Double.SupportsTLS
             (Double.tlsAccepts (Double.conn None ("[1,2]" ++ nl ++ "tail") None))
             (Double.tcpFails Double.refused)
             (Double.bytes "ping") Double.tlsNode Double.second)
    = Ret ((Double.bytes "[1,2]" ++ [newline])%list, None) /\
  net_events (trace (SendRequestBytes Double.IsOnion Double.SupportsTLS
                       (Double.tlsAccepts
                          (Double.conn None ("[1,2]" ++ nl ++ "tail") None))
                       (Double.tcpFails Double.refused)
                       (Double.bytes "ping") Double.tlsNode Double.second))
    = [EvDial TLS "tcp" "electrum.example:50002" Double.second;
       EvWrite 1 (Double.bytes "ping" ++ [newline]);
       EvRead 1;
       EvClose 1].
Proof.
  split; [reflexivity|].
  pose proof (SendRequestBytes_framing Double.IsOnion Double.SupportsTLS
                (Double.tlsAccepts (Double.conn None ("[1,2]" ++ nl ++ "tail") None))
                (Double.tcpFails Double.refused)
                (Double.bytes "ping") Double.tlsNode Double.second
                (Double.conn None ("[1,2]" ++ nl ++ "tail") None) eq_refl)
    as [Hw [Hr Ho]].
  split; [exact Hw|]. split.
  - apply (Hr (Double.bytes "[1,2]") (Double.bytes "tail")); try reflexivity.
    vm_compute. intuition discriminate.
  - exact (Ho eq_refl).
Defined.

Lemma SendRequest_close_failure_never_changes_result_witness :
  (forall (req : JSONRPCRequest) (k : Conn) (ce : option error),
     Double.Send req (Some (with_close ce k)) = Double.Send req (Some k)) /\
  outcome (SendRequest Double.IsOnion Double.SupportsTLS
             (fun t nw addr insecure =>
                closing None (Double.tlsFails Double.refused t nw addr insecure))
             (fun nw addr t =>
                closing None
                  (Double.tcpAccepts (Double.conn None ("[1,2]" ++ nl) None) nw addr t))
             Double.Send (NewPeerRequest 7) Double.plainNode Double.second)
  = outcome (SendRequest Double.IsOnion Double.SupportsTLS
               (fun t nw addr insecure =>
                  closing (Some "use of closed network connection")
                    (Double.tlsFails Double.refused t nw addr insecure))
               (fun nw addr t =>
                  closing (Some "use of closed network connection")
                    (Double.tcpAccepts (Double.conn None ("[1,2]" ++ nl) None) nw addr t))
               Double.Send (NewPeerRequest 7) Double.plainNode Double.second).
Proof.
  split; [reflexivity|].
  apply (SendRequest_close_failure_never_changes_result
           Double.IsOnion Double.SupportsTLS
           (Double.tlsFails Double.refused)
           (Double.tcpAccepts (Double.conn None ("[1,2]" ++ nl) None))
           Double.Send (fun _ _ _ => eq_refl)
           (NewPeerRequest 7) Double.plainNode Double.second
           None (Some "use of closed network connection")).
Defined.

(** ** Further instances *)

Lemma GetTLSConn_one_dial_witness :
  Double.IsOnion Double.tlsNode = false /\
  Double.SupportsTLS Double.tlsNode = true /\
  outcome (GetTLSConn Double.IsOnion Double.SupportsTLS
             (Double.tlsFails Double.handshake) Double.tlsNode Double.second)
    = Ret (None, Some ("could not establish TLS connection to "
                       ++ "electrum.example:50002"
                       ++ ": remote error: tls: handshake failure")).
Proof.
  split; [reflexivity|]. split; [reflexivity|].
  exact (proj2 (GetTLSConn_one_dial Double.IsOnion Double.SupportsTLS
                  (Double.tlsFails Double.handshake)
                  Double.tlsNode Double.second eq_refl eq_refl)).
Defined.

Lemma GetConn_one_dial_witness :
  Double.IsOnion Double.tlsNode = false /\
  net_events (trace (GetConn Double.IsOnion
                       (Double.tcpAccepts (Double.conn None "" None))
                       Double.tlsNode Double.second))
    = [EvDial TCP "tcp" "electrum.example:50001" Double.second].
Proof.
  split; [reflexivity|].
  exact (proj1 (GetConn_one_dial Double.IsOnion
                  (Double.tcpAccepts (Double.conn None "" None))
                  Double.tlsNode Double.second eq_refl)).
Defined.

Lemma exchange_onion_no_io_witness :
  Double.IsOnion Double.onionNode = true /\
  net_events (trace (SendRequest Double.IsOnion Double.SupportsTLS
                       (Double.tlsAccepts (Double.conn None "" None))
                       (Double.tcpAccepts (Double.conn None "" None))
                       Double.Send (NewPeerRequest 7)
                       Double.onionNode Double.second)) = [].
Proof.
  split; [reflexivity|].
  rewrite (proj1 (exchange_onion_no_io Double.IsOnion Double.SupportsTLS
                    (Double.tlsAccepts (Double.conn None "" None))
                    (Double.tcpAccepts (Double.conn None "" None))
                    Double.Send (NewPeerRequest 7) (Double.bytes "ping")
                    Double.onionNode Double.second eq_refl)).
  reflexivity.
Defined.

Lemma exchange_dial_failure_panics_witness :
  Double.IsOnion Double.plainNode = false /\
  chosen_dial Double.SupportsTLS (Double.tlsFails Double.refused)
    (Double.tcpFails Double.refused) Double.plainNode Double.second
    = inr Double.refused /\
  outcome (GetPeerInfo Double.IsOnion Double.SupportsTLS
             (Double.tlsFails Double.refused) (Double.tcpFails Double.refused)
             Double.Send (list byte) Double.json_Unmarshal Double.Parse
             Double.plainNode 7 Double.second)
    = Panic nil_dereference.
Proof.
  split; [reflexivity|]. split; [reflexivity|].
  exact (proj2 (proj2 (exchange_dial_failure_panics
                         Double.IsOnion Double.SupportsTLS
                         (Double.tlsFails Double.refused)
                         (Double.tcpFails Double.refused)
                         Double.Send (list byte) Double.json_Unmarshal Double.Parse
                         (NewPeerRequest 7) (Double.bytes "ping") 7
                         Double.plainNode Double.second Double.refused
                         eq_refl eq_refl))).
Defined.

Lemma SendRequest_connected_witness :
  outcome (Connect Double.IsOnion Double.SupportsTLS
             (Double.tlsFails Double.refused)
             (Double.tcpAccepts (Double.conn None ("[1,2]" ++ nl) None))
             Double.plainNode Double.second)
    = Ret (Some (Double.conn None ("[1,2]" ++ nl) None), None) /\
  outcome (Double.Send (NewPeerRequest 7)
             (Some (Double.conn None ("[1,2]" ++ nl) None)))
    = Ret (Double.bytes ("[1,2]" ++ nl), None) /\
  outcome (SendRequest Double.IsOnion Double.SupportsTLS
             (Double.tlsFails Double.refused)
             (Double.tcpAccepts (Double.conn None ("[1,2]" ++ nl) None))
             Double.Send (NewPeerRequest 7) Double.plainNode Double.second)
    = Ret (Double.bytes ("[1,2]" ++ nl), None) /\
  net_events (trace (SendRequest Double.IsOnion Double.SupportsTLS
                       (Double.tlsFails Double.refused)
                       (Double.tcpAccepts (Double.conn None ("[1,2]" ++ nl) None))
                       Double.Send (NewPeerRequest 7) Double.plainNode Double.second))
    = [EvDial TCP "tcp" "electrum.example:50001" Double.second;
       EvWrite 1 (Double.bytes ("server.peers.subscribe" ++ nl));
       EvRead 1; EvClose 1].
Proof.
  split; [reflexivity|]. split; [reflexivity|].
  exact (SendRequest_connected Double.IsOnion Double.SupportsTLS
           (Double.tlsFails Double.refused)
           (Double.tcpAccepts (Double.conn None ("[1,2]" ++ nl) None))
           Double.Send (NewPeerRequest 7) Double.plainNode Double.second
           (Double.conn None ("[1,2]" ++ nl) None)
           (Double.bytes ("[1,2]" ++ nl)) None eq_refl eq_refl).
Defined.

Lemma SendRequest_close_failure_logged_witness :
  outcome (Connect Double.IsOnion Double.SupportsTLS
             (Double.tlsFails Double.refused)
             (Double.tcpAccepts
                (Double.conn (Some Double.brokenPipe) "" (Some Double.closeFailed)))
             Double.plainNode Double.second)
    = Ret (Some (Double.conn (Some Double.brokenPipe) "" (Some Double.closeFailed)),
           None) /\
  outcome (Double.Send (NewPeerRequest 7)
             (Some (Double.conn (Some Double.brokenPipe) "" (Some Double.closeFailed))))
    = Ret ([], Some Double.brokenPipe) /\
  outcome (SendRequest Double.IsOnion Double.SupportsTLS
             (Double.tlsFails Double.refused)
             (Double.tcpAccepts
                (Double.conn (Some Double.brokenPipe) "" (Some Double.closeFailed)))
             Double.Send (NewPeerRequest 7) Double.plainNode Double.second)
    = Ret ([], Some Double.brokenPipe).
Proof.
  split; [reflexivity|]. split; [reflexivity|].
  exact (proj2 (SendRequest_close_failure_logged
                  Double.IsOnion Double.SupportsTLS
                  (Double.tlsFails Double.refused)
                  (Double.tcpAccepts
                     (Double.conn (Some Double.brokenPipe) "" (Some Double.closeFailed)))
                  Double.Send (NewPeerRequest 7) Double.plainNode Double.second
                  (Double.conn (Some Double.brokenPipe) "" (Some Double.closeFailed))
                  [] Double.brokenPipe Double.closeFailed
                  eq_refl eq_refl eq_refl)).
Defined.

Lemma SendRequestBytes_net_sequence_witness :
  outcome (Connect Double.IsOnion Double.SupportsTLS
             (Double.tlsAccepts (Double.conn None ("[1,2]" ++ nl) None))
             (Double.tcpFails Double.refused)
             Double.tlsNode Double.second)
    = Ret (Some (Double.conn None ("[1,2]" ++ nl) None), None) /\
  net_events (trace (SendRequestBytes Double.IsOnion Double.SupportsTLS
                       (Double.tlsAccepts (Double.conn None ("[1,2]" ++ nl) None))
                       (Double.tcpFails Double.refused)
                       (Double.bytes "ping") Double.tlsNode Double.second))
    = [EvDial TLS "tcp" "electrum.example:50002" Double.second;
       EvWrite 1 (Double.bytes ("ping" ++ nl));
       EvRead 1; EvClose 1].
Proof.
  split; [reflexivity|].
  exact (SendRequestBytes_net_sequence Double.IsOnion Double.SupportsTLS
           (Double.tlsAccepts (Double.conn None ("[1,2]" ++ nl) None))
           (Double.tcpFails Double.refused)
           (Double.bytes "ping") Double.tlsNode Double.second
           (Double.conn None ("[1,2]" ++ nl) None) eq_refl).
Defined.

Lemma SendRequestBytes_write_failure_unlogged_witness :
  outcome (Connect Double.IsOnion Double.SupportsTLS
             (Double.tlsFails Double.refused)
             (Double.tcpAccepts (Double.conn (Some Double.brokenPipe) "" None))
             Double.plainNode Double.second)
    = Ret (Some (Double.conn (Some Double.brokenPipe) "" None), None) /\
  WriteErr (Double.conn (Some Double.brokenPipe) "" None)
    (Double.bytes "ping" ++ [newline]) = Some Double.brokenPipe /\
  logs_error (trace (SendRequestBytes Double.IsOnion Double.SupportsTLS
                       (Double.tlsFails Double.refused)
                       (Double.tcpAccepts (Double.conn (Some Double.brokenPipe) "" None))
                       (Double.bytes "ping") Double.plainNode Double.second))
    = false.
Proof.
  split; [reflexivity|]. split; [reflexivity|].
  exact (SendRequestBytes_write_failure_unlogged
           Double.IsOnion Double.SupportsTLS
           (Double.tlsFails Double.refused)
           (Double.tcpAccepts (Double.conn (Some Double.brokenPipe) "" None))
           (Double.bytes "ping") Double.plainNode Double.second
           (Double.conn (Some Double.brokenPipe) "" None) Double.brokenPipe
           eq_refl eq_refl).
Defined.

Lemma SendRequestBytes_prints_witness :
  outcome (Connect Double.IsOnion Double.SupportsTLS
             (Double.tlsFails Double.refused)
             (Double.tcpAccepts (Double.conn None "[1,2" None))
             Double.plainNode Double.second)
    = Ret (Some (Double.conn None "[1,2" None), None) /\
  stdouts (trace (SendRequestBytes Double.IsOnion Double.SupportsTLS
                    (Double.tlsFails Double.refused)
                    (Double.tcpAccepts (Double.conn None "[1,2" None))
                    (Double.bytes "ping") Double.plainNode Double.second))
    = ["&{0xc000010000}" ++ nl; "[1,2" ++ nl].
Proof.
  split; [reflexivity|].
  exact (SendRequestBytes_prints Double.IsOnion Double.SupportsTLS
           (Double.tlsFails Double.refused)
           (Double.tcpAccepts (Double.conn None "[1,2" None))
           (Double.bytes "ping") Double.plainNode Double.second
           (Double.conn None "[1,2" None) eq_refl).
Defined.

Lemma exchange_error_has_no_bytes_witness :
  outcome (SendRequestBytes Double.IsOnion Double.SupportsTLS
             (Double.tlsFails Double.refused)
             (Double.tcpAccepts (Double.conn (Some Double.brokenPipe) "" None))
             (Double.bytes "ping") Double.plainNode Double.second)
    = Ret ([], Some Double.brokenPipe) /\
  (@nil byte) = [].
Proof.
  split; [reflexivity|].
  exact (proj2 (exchange_error_has_no_bytes Double.IsOnion Double.SupportsTLS
                  (Double.tlsFails Double.refused)
                  (Double.tcpAccepts (Double.conn (Some Double.brokenPipe) "" None))
                  Double.Send (NewPeerRequest 7) (Double.bytes "ping")
                  Double.plainNode Double.second [] Double.brokenPipe)
               eq_refl).
Defined.

Lemma GetPeerInfo_error_has_no_peers_witness :
  outcome (GetPeerInfo Double.IsOnion Double.SupportsTLS
             (Double.tlsFails Double.refused)
             (Double.tcpAccepts (Double.conn None ("{}" ++ nl) None))
             Double.Send (list byte) Double.json_Unmarshal Double.ParseFails
             Double.plainNode 7 Double.second)
    = Ret ([], Some "unknown feature") /\
  (@nil Node) = [].
Proof.
  split; [reflexivity|].
  exact (GetPeerInfo_error_has_no_peers Double.IsOnion Double.SupportsTLS
           (Double.tlsFails Double.refused)
           (Double.tcpAccepts (Double.conn None ("{}" ++ nl) None))
           Double.Send (list byte) Double.json_Unmarshal Double.ParseFails
           Double.plainNode 7 Double.second [] "unknown feature" eq_refl).
Defined.

Lemma GetPeerInfo_success_iff_witness :
  outcome (GetPeerInfo Double.IsOnion Double.SupportsTLS
             (Double.tlsFails Double.refused)
             (Double.tcpAccepts (Double.conn None ("{}" ++ nl) None))
             Double.Send (list byte) Double.json_Unmarshal Double.ParseOne
             Double.plainNode 7 Double.second)
    = Ret ([mkNode "peer.example" 50001 50002], None).
Proof.
  apply (proj2 (GetPeerInfo_success_iff Double.IsOnion Double.SupportsTLS
                  (Double.tlsFails Double.refused)
                  (Double.tcpAccepts (Double.conn None ("{}" ++ nl) None))
                  Double.Send (list byte) Double.json_Unmarshal Double.ParseOne
                  Double.plainNode 7 Double.second
                  [mkNode "peer.example" 50001 50002])).
  split; [reflexivity|].
  exists (Double.bytes ("{}" ++ nl)), (Double.bytes ("{}" ++ nl)).
  split; [reflexivity|]. split; reflexivity.
Defined.

Lemma returned_errors_are_logged_witness :
  outcome (GetPeerInfo Double.IsOnion Double.SupportsTLS
             (Double.tlsFails Double.refused)
             (Double.tcpAccepts (Double.conn None ("garbage" ++ nl) None))
             Double.Send (list byte) Double.json_Unmarshal Double.Parse
             Double.plainNode 7 Double.second)
    = Ret ([], Some "invalid character looking for beginning of value") /\
  logs_error (trace (GetPeerInfo Double.IsOnion Double.SupportsTLS
                       (Double.tlsFails Double.refused)
                       (Double.tcpAccepts (Double.conn None ("garbage" ++ nl) None))
                       Double.Send (list byte) Double.json_Unmarshal Double.Parse
                       Double.plainNode 7 Double.second))
    = true.
Proof.
  split; [reflexivity|].
  exact (proj2 (proj2 (proj2 (proj2
           (returned_errors_are_logged Double.IsOnion Double.SupportsTLS
              (Double.tlsFails Double.refused)
              (Double.tcpAccepts (Double.conn None ("garbage" ++ nl) None))
              Double.Send (list byte) Double.json_Unmarshal Double.Parse
              (NewPeerRequest 7) 7 Double.plainNode Double.second))))
           [] "invalid character looking for beginning of value" eq_refl).
Defined.

Lemma SendRequest_success_discards_close_error_witness :
  (forall (req : JSONRPCRequest) (k : Conn) (ce : option error),
     Double.Send req (Some (with_close ce k)) = Double.Send req (Some k)) /\
  outcome (SendRequest Double.IsOnion Double.SupportsTLS
             (fun t nw addr insecure =>
                closing (Some Double.closeFailed)
                  (Double.tlsFails Double.refused t nw addr insecure))
             (fun nw addr t =>
                closing (Some Double.closeFailed)
                  (Double.tcpAccepts (Double.conn None ("[1,2]" ++ nl) None) nw addr t))
             Double.Send (NewPeerRequest 7) Double.plainNode Double.second)
    = Ret (Double.bytes ("[1,2]" ++ nl), None) /\
  trace (SendRequest Double.IsOnion Double.SupportsTLS
           (fun t nw addr insecure =>
              closing (Some Double.closeFailed)
                (Double.tlsFails Double.refused t nw addr insecure))
           (fun nw addr t =>
              closing (Some Double.closeFailed)
                (Double.tcpAccepts (Double.conn None ("[1,2]" ++ nl) None) nw addr t))
           Double.Send (NewPeerRequest 7) Double.plainNode Double.second)
  = trace (SendRequest Double.IsOnion Double.SupportsTLS
             (fun t nw addr insecure =>
                closing None (Double.tlsFails Double.refused t nw addr insecure))
             (fun nw addr t =>
                closing None
                  (Double.tcpAccepts (Double.conn None ("[1,2]" ++ nl) None) nw addr t))
             Double.Send (NewPeerRequest 7) Double.plainNode Double.second).
Proof.
  split; [reflexivity|]. split; [reflexivity|].
  exact (SendRequest_success_discards_close_error
           Double.IsOnion Double.SupportsTLS
           (Double.tlsFails Double.refused)
           (Double.tcpAccepts (Double.conn None ("[1,2]" ++ nl) None))
           Double.Send (fun _ _ _ => eq_refl)
           (NewPeerRequest 7) Double.plainNode Double.second
           (Some Double.closeFailed) None
           (Double.bytes ("[1,2]" ++ nl)) eq_refl).
Defined.
